(** * pybind11 object layer: handles, owning references, the error bridge

    A shallow embedding of [pybind11/pytypes] and of
    [detail::translate_exception] ([pybind11/detail/internals]).

    The wrappers of the sources are embedded as functions in a small
    state-and-exception monad over the state of the host runtime.  Two parts
    of that state are described concretely, because the sources manipulate
    them directly: the reference count of every live object and the error
    indicator (a triple of object pointers).  Every other call into the host
    runtime may do anything to the state; such calls are fields of a record
    [HostAPI] over which the development is parametric. *)

From Stdlib Require Import ZArith Ascii String List Lia Bool PrimFloat.
From stdpp Require Import base gmap strings.

Local Open Scope Z_scope.

(** ** Pointers and machine integers *)

(** A [PyObject *] is an address; address [0] is [nullptr]. *)
Definition nullptr : N := 0%N.

Definition is_null (p : N) : bool := N.eqb p nullptr.

(** [size_t] and [ssize_t] are 64 bits wide. *)
Definition size_t_of_ssize_t (x : Z) : Z := x mod 2 ^ 64.

Definition ssize_t_of_size_t (x : Z) : Z :=
  let y := x mod 2 ^ 64 in if y <? 2 ^ 63 then y else y - 2 ^ 64.

(** ** State of the host runtime *)

(** The error indicator of the running thread. *)
Record PyErr := mkPyErr {
  curexc_type : N;
  curexc_value : N;
  curexc_traceback : N
}.

Definition no_error : PyErr := mkPyErr nullptr nullptr nullptr.

(** [ob_refcnt] gives the reference count of every live object; [world]
    stands for everything else the runtime keeps (object contents, iterator
    positions, ...).  An address outside [ob_refcnt] is not an object the
    model follows: counting operations leave the state alone there. *)
Record PyState (W : Type) := mkPyState {
  ob_refcnt : gmap N Z;
  curexc : PyErr;
  world : W
}.
Arguments mkPyState {W} _ _ _.
Arguments ob_refcnt {W} _.
Arguments curexc {W} _.
Arguments world {W} _.

Section Refcount.
Context {W : Type}.

Definition with_refcnt (f : gmap N Z → gmap N Z) (s : PyState W) : PyState W :=
  mkPyState (f (ob_refcnt s)) (curexc s) (world s).

Definition with_curexc (e : PyErr) (s : PyState W) : PyState W :=
  mkPyState (ob_refcnt s) e (world s).

(** [Py_XINCREF(p)]: nothing on [nullptr], else [++p->ob_refcnt]. *)
Definition Py_XINCREF (p : N) (s : PyState W) : PyState W :=
  if is_null p then s else with_refcnt (alter Z.succ p) s.

(** [Py_XDECREF(p)]: nothing on [nullptr], else [--p->ob_refcnt], and the
    object is deallocated (leaves the live objects) when the count reaches
    zero.  What a deallocation does to other objects is not described. *)
Definition Py_XDECREF (p : N) (s : PyState W) : PyState W :=
  if is_null p then s
  else match ob_refcnt s !! p with
       | Some c =>
           if c - 1 =? 0 then with_refcnt (delete p) s
           else with_refcnt (<[p := c - 1]>) s
       | None => s
       end.

(** [PyErr_Occurred()]: the type of the pending error, [nullptr] if none. *)
Definition PyErr_Occurred (s : PyState W) : N := curexc_type (curexc s).

(** [PyErr_Fetch(&t, &v, &tb)]: hands the three references of the
    indicator to the caller and clears the indicator. *)
Definition PyErr_Fetch (s : PyState W) : PyErr * PyState W :=
  (curexc s, with_curexc no_error s).

(** [PyErr_Restore(t, v, tb)]: sets the indicator from the three objects,
    taking over the caller's references; an error already set is cleared
    first, and three nulls clear the indicator. *)
Definition PyErr_Restore (t v tb : N) (s : PyState W) : PyState W :=
  let old := curexc s in
  let s1 := with_curexc (mkPyErr t v tb) s in
  Py_XDECREF (curexc_traceback old)
    (Py_XDECREF (curexc_value old) (Py_XDECREF (curexc_type old) s1)).

(** [PyErr_Clear()]. *)
Definition PyErr_Clear (s : PyState W) : PyState W :=
  PyErr_Restore nullptr nullptr nullptr s.
End Refcount.

(** ** Handles and owning references *)

(** [handle]: one raw pointer, no ownership. *)
Record handle := mkHandle { m_ptr : N }.

(** [object] derives from [handle] and has no member of its own. *)
Definition object : Type := handle.

Definition handle_ptr (h : handle) : N := m_ptr h.

Definition handle_bool (h : handle) : bool := negb (is_null (m_ptr h)).

Section Object.
Context {W : Type}.

(** [handle::inc_ref], [handle::dec_ref]. *)
Definition handle_inc_ref (h : handle) (s : PyState W) : PyState W :=
  Py_XINCREF (m_ptr h) s.

Definition handle_dec_ref (h : handle) (s : PyState W) : PyState W :=
  Py_XDECREF (m_ptr h) s.

(** [object(handle, borrowed_t)] and [object(handle, stolen_t)]. *)
Definition object_borrowed (h : handle) (s : PyState W) : object * PyState W :=
  (h, handle_inc_ref h s).

Definition object_stolen (h : handle) : object := h.

(** [object::~object]. *)
Definition object_dtor (o : object) (s : PyState W) : PyState W :=
  handle_dec_ref o s.

(** [object::release]: returns the pointer and leaves the object empty. *)
Definition object_release (o : object) : handle * object :=
  let tmp := m_ptr o in
  (mkHandle tmp, mkHandle nullptr).

(** [object::operator=(const object &)].  [this_] is the assigned object
    before the call; the result is the assigned object after it.  The
    states after each of the two statements that touch a count are both
    returned, the last one being the state after the call. *)
Definition object_assign_steps (this_ other : object) (s : PyState W)
  : object * (PyState W * PyState W) :=
  let s1 := handle_inc_ref other s in
  let s2 := handle_dec_ref this_ s1 in
  (mkHandle (m_ptr other), (s1, s2)).

Definition object_assign (this_ other : object) (s : PyState W)
  : object * PyState W :=
  let '(o, (_, s2)) := object_assign_steps this_ other s in (o, s2).

(** [object::operator=(object &&)] on two distinct objects ([this !=
    &other]): the result is the assigned object and the moved-from one. *)
Definition object_move_assign (this_ other : object) (s : PyState W)
  : (object * object) * PyState W :=
  let temp := mkHandle (m_ptr this_) in
  ((mkHandle (m_ptr other), mkHandle nullptr), handle_dec_ref temp s).
End Object.

(** ** Native faults *)

(** The classes of the C++ standard library that [translate_exception]
    names, with their bases, and classes defined elsewhere that derive from
    one of them. *)
Inductive std_class :=
  | std_exception
  | std_bad_alloc
  | std_bad_cast
  | std_logic_error
  | std_domain_error
  | std_invalid_argument
  | std_length_error
  | std_out_of_range
  | std_runtime_error
  | std_range_error
  | std_overflow_error
  | std_underflow_error
  | derived_from (base : std_class).

#[global] Instance std_class_eq_dec : EqDecision std_class.
Proof. solve_decision. Defined.

(** A class followed by all its bases, nearest first. *)
Fixpoint ancestors (c : std_class) : list std_class :=
  match c with
  | std_exception => [std_exception]
  | std_bad_alloc => [std_bad_alloc; std_exception]
  | std_bad_cast => [std_bad_cast; std_exception]
  | std_logic_error => [std_logic_error; std_exception]
  | std_domain_error => [std_domain_error; std_logic_error; std_exception]
  | std_invalid_argument => [std_invalid_argument; std_logic_error; std_exception]
  | std_length_error => [std_length_error; std_logic_error; std_exception]
  | std_out_of_range => [std_out_of_range; std_logic_error; std_exception]
  | std_runtime_error => [std_runtime_error; std_exception]
  | std_range_error => [std_range_error; std_runtime_error; std_exception]
  | std_overflow_error => [std_overflow_error; std_runtime_error; std_exception]
  | std_underflow_error => [std_underflow_error; std_runtime_error; std_exception]
  | derived_from b => derived_from b :: ancestors b
  end.

(** [catch (const target &)] takes a fault of dynamic class [c]. *)
Definition catches (target c : std_class) : bool :=
  existsb (fun a => bool_decide (a = target)) (ancestors c).

(** [error_already_set]: the message computed at construction and the three
    owning references of the captured error. *)
Record error_already_set := mkErrorAlreadySet {
  what : string;
  m_type : object;
  m_value : object;
  m_trace : object
}.

(** What a C++ [throw] can carry to [translate_exception].
    [error_already_set] and [builtin_exception] have handlers of their own;
    a [builtin_exception] brings its virtual [set_error]; [exc_foreign] is
    any object whose class does not derive from [std::exception]. *)
Inductive cpp_exception (W : Type) :=
  | exc_error_already_set (e : error_already_set)
  | exc_builtin_exception (msg : string) (set_error : PyState W → PyState W)
  | exc_std (c : std_class) (msg : string)
  | exc_foreign.
Arguments exc_error_already_set {W} _.
Arguments exc_builtin_exception {W} _ _.
Arguments exc_std {W} _ _.
Arguments exc_foreign {W}.

(** ** Calls that may throw *)

Inductive result (E A : Type) :=
  | Ok (a : A)
  | Throw (e : E).
Arguments Ok {E A} _.
Arguments Throw {E A} _.

Definition M (W A : Type) : Type :=
  PyState W → result (cpp_exception W) A * PyState W.

Definition ret {W A} (a : A) : M W A := fun s => (Ok a, s).

Definition bind {W A B} (m : M W A) (k : A → M W B) : M W B :=
  fun s => match m s with
           | (Ok a, s1) => k a s1
           | (Throw e, s1) => (Throw e, s1)
           end.

Definition throw {W A} (e : cpp_exception W) : M W A := fun s => (Throw e, s).

(** A call into the runtime that returns a value. *)
Definition call {W A} (f : PyState W → A * PyState W) : M W A :=
  fun s => let '(a, s1) := f s in (Ok a, s1).

(** A call into the runtime that returns nothing. *)
Definition exec {W} (f : PyState W → PyState W) : M W unit :=
  fun s => (Ok tt, f s).

(** Runs [cleanup] when [m] is left, normally or by a throw: the destructors
    of the locals of a scope. *)
Definition finally {W A} (m : M W A) (cleanup : PyState W → PyState W) : M W A :=
  fun s => let '(r, s1) := m s in (r, cleanup s1).

Declare Scope cpp_scope.
Delimit Scope cpp_scope with cpp.
Notation "'let*' x ':=' m 'in' k" := (bind m (fun x => k))
  (at level 10, x pattern, m at level 100, k at level 200) : cpp_scope.
Notation "m ';;' k" := (bind m (fun _ => k))
  (at level 100, k at level 200, right associativity) : cpp_scope.

(** Runs [cleanup] only when [m] throws: the destructor of the base
    subobject of an object whose constructor body throws. *)
Definition on_throw {W A} (m : M W A) (cleanup : PyState W → PyState W) : M W A :=
  fun s => match m s with
           | (Ok a, s1) => (Ok a, s1)
           | (Throw e, s1) => (Throw e, cleanup s1)
           end.

Definition returns {W A} (m : M W A) (s : PyState W) : Prop :=
  ∃ a s1, m s = (Ok a, s1).

Definition raises {W A} (m : M W A) (s : PyState W) : Prop :=
  ∃ e s1, m s = (Throw e, s1).

(** [m] raises the fatal error with the given reason. *)
Definition fails_with {W A} (m : M W A) (s : PyState W) (reason : string) : Prop :=
  ∃ s1, m s = (Throw (exc_std std_runtime_error reason), s1).

(** Modelled from the spec: [pybind11_fail] is defined in
    [detail/common.h], which is not among the sources.  The spec describes
    the failures it reports as fatal and raised at once; here it throws a
    native fault of class [std::runtime_error] that carries the reason. *)
Definition pybind11_fail {W A} (reason : string) : M W A :=
  throw (exc_std std_runtime_error reason).

(** ** The rest of the host runtime *)

(** Calls whose outcome depends on the objects involved.  Each takes the
    state and returns its C result with the new state.  [error_string] is
    [detail::error_string] (from [cast.h]) and [int__from_ssize_t] the
    templated [int_] constructor (from [pytypes.h]); neither is among the
    sources. *)
Record HostAPI (W : Type) := mkHostAPI {
  PY_VERSION_HEX : Z;
  PY_MAJOR_VERSION : Z;
  PyExc_MemoryError : N;
  PyExc_ValueError : N;
  PyExc_IndexError : N;
  PyExc_RuntimeError : N;
  PyErr_SetString : N → string → PyState W → PyState W;
  error_string : PyState W → string * PyState W;
  PyObject_HasAttr : N → N → PyState W → Z * PyState W;
  PyObject_HasAttrString : N → string → PyState W → Z * PyState W;
  PyObject_DelAttr : N → N → PyState W → Z * PyState W;
  PyObject_DelAttrString : N → string → PyState W → Z * PyState W;
  PyObject_GetAttr : N → N → PyState W → N * PyState W;
  PyObject_GetAttrString : N → string → PyState W → N * PyState W;
  PyObject_SetAttr : N → N → N → PyState W → Z * PyState W;
  PyObject_SetAttrString : N → string → N → PyState W → Z * PyState W;
  PySequence_SetItem : N → Z → N → PyState W → Z * PyState W;
  PyList_SetItem : N → Z → N → PyState W → Z * PyState W;
  PyTuple_SetItem : N → Z → N → PyState W → Z * PyState W;
  PyIter_Next : N → PyState W → N * PyState W;
  PyObject_Length : N → PyState W → Z * PyState W;
  PyObject_LengthHint : N → Z → PyState W → Z * PyState W;
  PyUnicode_FromStringAndSize : string → Z → PyState W → N * PyState W;
  PyUnicode_FromString : string → PyState W → N * PyState W;
  PyObject_Str : N → PyState W → N * PyState W;
  PyUnicode_FromEncodedObject : N → string → PyState W → N * PyState W;
  PYBIND11_BYTES_FROM_STRING : string → PyState W → N * PyState W;
  PYBIND11_BYTES_FROM_STRING_AND_SIZE : string → Z → PyState W → N * PyState W;
  PyLong_FromLong : Z → PyState W → N * PyState W;
  PyFloat_FromDouble : float → PyState W → N * PyState W;
  PyWeakref_NewRef : N → N → PyState W → N * PyState W;
  PySlice_New : N → N → N → PyState W → N * PyState W;
  int__from_ssize_t : Z → M W object;
  PyCapsule_New : N → option string → N → PyState W → N * PyState W;
  PyCapsule_SetContext : N → N → PyState W → Z * PyState W;
  PyTuple_New : Z → PyState W → N * PyState W;
  PyDict_New : PyState W → N * PyState W;
  PyList_New : Z → PyState W → N * PyState W;
  PySet_New : N → PyState W → N * PyState W;
  PyUnicode_Check : N → PyState W → bool;
  PyUnicode_AsUTF8String : N → PyState W → N * PyState W;
  PYBIND11_BYTES_AS_STRING_AND_SIZE : N → PyState W → (Z * (string * Z)) * PyState W
}.

Arguments PY_VERSION_HEX {W} _.
Arguments PY_MAJOR_VERSION {W} _.
Arguments PyExc_MemoryError {W} _.
Arguments PyExc_ValueError {W} _.
Arguments PyExc_IndexError {W} _.
Arguments PyExc_RuntimeError {W} _.
Arguments PyErr_SetString {W} _ _ _ _.
Arguments error_string {W} _ _.
Arguments PyObject_HasAttr {W} _ _ _ _.
Arguments PyObject_HasAttrString {W} _ _ _ _.
Arguments PyObject_DelAttr {W} _ _ _ _.
Arguments PyObject_DelAttrString {W} _ _ _ _.
Arguments PyObject_GetAttr {W} _ _ _ _.
Arguments PyObject_GetAttrString {W} _ _ _ _.
Arguments PyObject_SetAttr {W} _ _ _ _ _.
Arguments PyObject_SetAttrString {W} _ _ _ _ _.
Arguments PySequence_SetItem {W} _ _ _ _ _.
Arguments PyList_SetItem {W} _ _ _ _ _.
Arguments PyTuple_SetItem {W} _ _ _ _ _.
Arguments PyIter_Next {W} _ _ _.
Arguments PyObject_Length {W} _ _ _.
Arguments PyObject_LengthHint {W} _ _ _ _.
Arguments PyUnicode_FromStringAndSize {W} _ _ _ _.
Arguments PyUnicode_FromString {W} _ _ _.
Arguments PyObject_Str {W} _ _ _.
Arguments PyUnicode_FromEncodedObject {W} _ _ _ _.
Arguments PYBIND11_BYTES_FROM_STRING {W} _ _ _.
Arguments PYBIND11_BYTES_FROM_STRING_AND_SIZE {W} _ _ _ _.
Arguments PyLong_FromLong {W} _ _ _.
Arguments PyFloat_FromDouble {W} _ _ _.
Arguments PyWeakref_NewRef {W} _ _ _ _.
Arguments PySlice_New {W} _ _ _ _ _.
Arguments int__from_ssize_t {W} _ _.
Arguments PyCapsule_New {W} _ _ _ _ _.
Arguments PyCapsule_SetContext {W} _ _ _ _.
Arguments PyTuple_New {W} _ _ _.
Arguments PyDict_New {W} _ _.
Arguments PyList_New {W} _ _ _.
Arguments PySet_New {W} _ _ _.
Arguments PyUnicode_Check {W} _ _ _.
Arguments PyUnicode_AsUTF8String {W} _ _ _.
Arguments PYBIND11_BYTES_AS_STRING_AND_SIZE {W} _ _ _.

Local Open Scope cpp_scope.

(** ** The error bridge *)

Section ErrorBridge.
Context {W : Type} (api : HostAPI W).

(** [error_already_set::error_already_set()]: the base class is built from
    [detail::error_string()], then the body fetches the indicator into the
    three members. *)
Definition error_already_set_ctor (s : PyState W)
  : error_already_set * PyState W :=
  let '(msg, s1) := error_string api s in
  let '(e, s2) := PyErr_Fetch s1 in
  (mkErrorAlreadySet msg (mkHandle (curexc_type e))
     (mkHandle (curexc_value e)) (mkHandle (curexc_traceback e)), s2).

(** [throw error_already_set();] *)
Definition throw_error_already_set {A} : M W A :=
  fun s => let '(e, s1) := error_already_set_ctor s in
           (Throw (exc_error_already_set e), s1).

(** [error_already_set::restore]: the value after the call, and the
    state. *)
Definition error_already_set_restore (e : error_already_set) (s : PyState W)
  : error_already_set * PyState W :=
  let '(t, m_type') := object_release (m_type e) in
  let '(v, m_value') := object_release (m_value e) in
  let '(tb, m_trace') := object_release (m_trace e) in
  (mkErrorAlreadySet (what e) m_type' m_value' m_trace',
   PyErr_Restore (handle_ptr t) (handle_ptr v) (handle_ptr tb) s).

(** [detail::translate_exception].  [p] is the [std::exception_ptr]:
    [None] when it is empty.  The handlers are tried in the order of the
    [catch] clauses. *)
Definition translate_exception (p : option (cpp_exception W)) (s : PyState W)
  : PyState W :=
  match p with
  | None => s
  | Some (exc_error_already_set e) => snd (error_already_set_restore e s)
  | Some (exc_builtin_exception _ set_error) => set_error s
  | Some (exc_std c msg) =>
      if catches std_bad_alloc c then
        PyErr_SetString api (PyExc_MemoryError api) msg s
      else if catches std_domain_error c then
        PyErr_SetString api (PyExc_ValueError api) msg s
      else if catches std_invalid_argument c then
        PyErr_SetString api (PyExc_ValueError api) msg s
      else if catches std_length_error c then
        PyErr_SetString api (PyExc_ValueError api) msg s
      else if catches std_out_of_range c then
        PyErr_SetString api (PyExc_IndexError api) msg s
      else if catches std_range_error c then
        PyErr_SetString api (PyExc_ValueError api) msg s
      else if catches std_exception c then
        PyErr_SetString api (PyExc_RuntimeError api) msg s
      else
        PyErr_SetString api (PyExc_RuntimeError api)
          "Caught an unknown exception!" s
  | Some exc_foreign =>
      PyErr_SetString api (PyExc_RuntimeError api)
        "Caught an unknown exception!" s
  end.
End ErrorBridge.

(** ** Builtins and accessor policies *)

Section Builtins.
Context {W : Type} (api : HostAPI W).

(** [reinterpret_steal<object>(p)] and [reinterpret_borrow<object>(h)]. *)
Definition reinterpret_steal (p : N) : object := object_stolen (mkHandle p).

Definition reinterpret_borrow (h : handle) : M W object :=
  call (object_borrowed h).

(** [hasattr] by object key and by C-string key. *)
Definition hasattr (obj name : handle) : M W bool :=
  let* r := call (PyObject_HasAttr api (handle_ptr obj) (handle_ptr name)) in
  ret (r =? 1).

Definition hasattr_str (obj : handle) (name : string) : M W bool :=
  let* r := call (PyObject_HasAttrString api (handle_ptr obj) name) in
  ret (r =? 1).

(** [delattr]. *)
Definition delattr (obj name : handle) : M W unit :=
  let* r := call (PyObject_DelAttr api (handle_ptr obj) (handle_ptr name)) in
  if negb (r =? 0) then throw_error_already_set api else ret tt.

Definition delattr_str (obj : handle) (name : string) : M W unit :=
  let* r := call (PyObject_DelAttrString api (handle_ptr obj) name) in
  if negb (r =? 0) then throw_error_already_set api else ret tt.

(** [getattr] without a default. *)
Definition getattr (obj name : handle) : M W object :=
  let* result := call (PyObject_GetAttr api (handle_ptr obj) (handle_ptr name)) in
  if is_null result then throw_error_already_set api
  else ret (reinterpret_steal result).

Definition getattr_str (obj : handle) (name : string) : M W object :=
  let* result := call (PyObject_GetAttrString api (handle_ptr obj) name) in
  if is_null result then throw_error_already_set api
  else ret (reinterpret_steal result).

(** [getattr] with a default. *)
Definition getattr_default (obj name default_ : handle) : M W object :=
  let* result := call (PyObject_GetAttr api (handle_ptr obj) (handle_ptr name)) in
  if negb (is_null result) then ret (reinterpret_steal result)
  else (exec PyErr_Clear ;; reinterpret_borrow default_).

Definition getattr_str_default (obj : handle) (name : string) (default_ : handle)
  : M W object :=
  let* result := call (PyObject_GetAttrString api (handle_ptr obj) name) in
  if negb (is_null result) then ret (reinterpret_steal result)
  else (exec PyErr_Clear ;; reinterpret_borrow default_).

(** [setattr]. *)
Definition setattr (obj name value : handle) : M W unit :=
  let* r := call (PyObject_SetAttr api (handle_ptr obj) (handle_ptr name)
                    (handle_ptr value)) in
  if negb (r =? 0) then throw_error_already_set api else ret tt.

Definition setattr_str (obj : handle) (name : string) (value : handle) : M W unit :=
  let* r := call (PyObject_SetAttrString api (handle_ptr obj) name
                    (handle_ptr value)) in
  if negb (r =? 0) then throw_error_already_set api else ret tt.

(** [accessor_policies::sequence_item::set]: the value is passed as it
    is. *)
Definition sequence_item_set (obj : handle) (index : Z) (val : handle) : M W unit :=
  let* r := call (PySequence_SetItem api (handle_ptr obj)
                    (ssize_t_of_size_t index) (handle_ptr val)) in
  if negb (r =? 0) then throw_error_already_set api else ret tt.

(** [accessor_policies::list_item::set]: [val.inc_ref().ptr()] is the
    argument of the call. *)
Definition list_item_set (obj : handle) (index : Z) (val : handle) : M W unit :=
  exec (handle_inc_ref val) ;;
  let* r := call (PyList_SetItem api (handle_ptr obj)
                    (ssize_t_of_size_t index) (handle_ptr val)) in
  if negb (r =? 0) then throw_error_already_set api else ret tt.

(** [accessor_policies::tuple_item::set]. *)
Definition tuple_item_set (obj : handle) (index : Z) (val : handle) : M W unit :=
  exec (handle_inc_ref val) ;;
  let* r := call (PyTuple_SetItem api (handle_ptr obj)
                    (ssize_t_of_size_t index) (handle_ptr val)) in
  if negb (r =? 0) then throw_error_already_set api else ret tt.

(** [len]. *)
Definition len (h : handle) : M W Z :=
  let* result := call (PyObject_Length api (handle_ptr h)) in
  if result <? 0 then pybind11_fail "Unable to compute length of object"
  else ret (size_t_of_ssize_t result).

(** The query of [len_hint], chosen by the version of the runtime. *)
Definition len_hint_query (p : N) : PyState W → Z * PyState W :=
  if 0x03040000 <=? PY_VERSION_HEX api
  then PyObject_LengthHint api p 0
  else PyObject_Length api p.

(** [len_hint]. *)
Definition len_hint (h : handle) : M W Z :=
  let* result := call (len_hint_query (handle_ptr h)) in
  if result <? 0 then (exec PyErr_Clear ;; ret 0)
  else ret (size_t_of_ssize_t result).
End Builtins.

(** ** The generic iterator *)

(** [iterator] derives from [object] and caches the last element produced. *)
Record iterator := mkIterator {
  it_object : object;
  value : object
}.

Section Iterator.
Context {W : Type} (api : HostAPI W).

(** [iterator::sentinel()]: a default-constructed iterator. *)
Definition iterator_sentinel : iterator :=
  mkIterator (mkHandle nullptr) (mkHandle nullptr).

(** [iterator::advance].  A member function that changes [*this] and may
    throw: the iterator after the call is returned in both cases.  The
    assignment to [value] is a move from the temporary, which is then
    destroyed. *)
Definition iterator_advance (it : iterator) (s : PyState W)
  : result (cpp_exception W) unit * iterator * PyState W :=
  let '(p, s1) := PyIter_Next api (m_ptr (it_object it)) s in
  let '((value', temp), s2) :=
    object_move_assign (value it) (reinterpret_steal p) s1 in
  let s3 := object_dtor temp s2 in
  let it' := mkIterator (it_object it) value' in
  if negb (is_null (PyErr_Occurred s3)) then
    let '(r, s4) := throw_error_already_set api s3 in (r, it', s4)
  else (Ok tt, it', s3).

(** [iterator::operator*]: advances first when nothing is cached; returns
    the cached value. *)
Definition iterator_deref (it : iterator) (s : PyState W)
  : result (cpp_exception W) object * iterator * PyState W :=
  if negb (is_null (m_ptr (it_object it))) && is_null (handle_ptr (value it)) then
    match iterator_advance it s with
    | (Ok _, it', s1) => (Ok (value it'), it', s1)
    | (Throw e, it', s1) => (Throw e, it', s1)
    end
  else (Ok (value it), it, s).

(** [operator==(const iterator &, const iterator &)]:
    [a->ptr() == b->ptr()], the left operand being evaluated first. *)
Definition iterator_eq (a b : iterator) (s : PyState W)
  : result (cpp_exception W) bool * (iterator * iterator) * PyState W :=
  match iterator_deref a s with
  | (Throw e, a', s1) => (Throw e, (a', b), s1)
  | (Ok va, a', s1) =>
      match iterator_deref b s1 with
      | (Throw e, b', s2) => (Throw e, (a', b'), s2)
      | (Ok vb, b', s2) =>
          (Ok (N.eqb (handle_ptr va) (handle_ptr vb)), (a', b'), s2)
      end
  end.
End Iterator.

(** ** Constructors of the specialized owning references *)

Section Constructors.
Context {W : Type} (api : HostAPI W).

(** The body [if (!m_ptr) pybind11_fail(reason);] of a constructor whose
    base subobject is [this_]. *)
Definition fail_if_null (this_ : object) (reason : string) : M W object :=
  on_throw
    (if is_null (m_ptr this_) then pybind11_fail reason else ret this_)
    (object_dtor this_).

(** [str::str(const char *c, size_t n)]. *)
Definition str_ctor_n (c : string) (n : Z) : M W object :=
  let* p := call (PyUnicode_FromStringAndSize api c (ssize_t_of_size_t n)) in
  fail_if_null (object_stolen (mkHandle p)) "Could not allocate string object!".

(** [str::str(const char *c)]. *)
Definition str_ctor (c : string) : M W object :=
  let* p := call (PyUnicode_FromString api c) in
  fail_if_null (object_stolen (mkHandle p)) "Could not allocate string object!".

(** [str::str(const std::string &s)] delegates with [s.data()],
    [s.size()]. *)
Definition str_ctor_string (s : string) : M W object :=
  str_ctor_n s (Z.of_nat (String.length s)).

(** [str::raw_str]. *)
Definition str_raw_str (op : N) : M W N :=
  let* str_value := call (PyObject_Str api op) in
  if PY_MAJOR_VERSION api <? 3 then
    (if is_null str_value then throw_error_already_set api else ret tt) ;;
    let* unicode := call (PyUnicode_FromEncodedObject api str_value "utf-8") in
    exec (Py_XDECREF str_value) ;;
    ret unicode
  else ret str_value.

(** [str::str(handle h)]: the body is empty. *)
Definition str_ctor_handle (h : handle) : M W object :=
  let* p := str_raw_str (handle_ptr h) in
  ret (object_stolen (mkHandle p)).

(** [bytes::bytes(const char *c)] and [bytes::bytes(const char *c, size_t n)]. *)
Definition bytes_ctor (c : string) : M W object :=
  let* p := call (PYBIND11_BYTES_FROM_STRING api c) in
  fail_if_null (object_stolen (mkHandle p)) "Could not allocate bytes object!".

Definition bytes_ctor_n (c : string) (n : Z) : M W object :=
  let* p := call (PYBIND11_BYTES_FROM_STRING_AND_SIZE api c (ssize_t_of_size_t n)) in
  fail_if_null (object_stolen (mkHandle p)) "Could not allocate bytes object!".

Definition bytes_ctor_string (s : string) : M W object :=
  bytes_ctor_n s (Z.of_nat (String.length s)).

(** The common start of [bytes::bytes(const str &)] and of the string
    conversion: [temp] copies [s] and is replaced by its UTF-8 encoding
    when [s] is a unicode object. *)
Definition utf8_temp (s : object) : M W object :=
  let* temp := call (object_borrowed s) in
  fun st =>
    if PyUnicode_Check api (handle_ptr s) st then
      let '(p, st1) := PyUnicode_AsUTF8String api (handle_ptr s) st in
      let '((temp', moved), st2) :=
        object_move_assign temp (reinterpret_steal p) st1 in
      let st3 := object_dtor moved st2 in
      on_throw
        (if negb (handle_bool temp')
         then pybind11_fail "Unable to extract string contents! (encoding issue)"
         else ret temp')
        (object_dtor temp') st3
    else ret temp st.

(** [bytes::bytes(const pybind11::str &s)].  The base subobject is empty
    until the last statement, so its destructor has nothing to do when the
    body throws. *)
Definition bytes_ctor_str (s : object) : M W object :=
  let* temp := utf8_temp s in
  finally
    (let* r := call (PYBIND11_BYTES_AS_STRING_AND_SIZE api (handle_ptr temp)) in
     let '(rc, (buffer, length)) := r in
     if negb (rc =? 0)
     then pybind11_fail "Unable to extract string contents! (invalid type)"
     else
       let* p := call (PYBIND11_BYTES_FROM_STRING_AND_SIZE api buffer length) in
       let obj := reinterpret_steal p in
       if negb (handle_bool obj)
       then finally (pybind11_fail "Could not allocate bytes object!")
              (object_dtor obj)
       else
         let '(h, obj') := object_release obj in
         finally (ret (mkHandle (handle_ptr h))) (object_dtor obj'))
    (object_dtor temp).

(** [str::str(const bytes &b)]. *)
Definition str_ctor_bytes (b : object) : M W object :=
  let* r := call (PYBIND11_BYTES_AS_STRING_AND_SIZE api (handle_ptr b)) in
  let '(rc, (buffer, length)) := r in
  if negb (rc =? 0) then pybind11_fail "Unable to extract bytes contents!"
  else
    let* p := call (PyUnicode_FromStringAndSize api buffer length) in
    let obj := reinterpret_steal p in
    if negb (handle_bool obj)
    then finally (pybind11_fail "Could not allocate string object!")
           (object_dtor obj)
    else
      let '(h, obj') := object_release obj in
      finally (ret (mkHandle (handle_ptr h))) (object_dtor obj').

(** [int_::int_()]: the body is empty. *)
Definition int__ctor : M W object :=
  let* p := call (PyLong_FromLong api 0) in
  ret (object_stolen (mkHandle p)).

(** [float_::float_(float)] and [float_::float_(double)]; the conversion
    of a [float] argument to [double] keeps its value. *)
Definition float__ctor_float (value : float) : M W object :=
  let* p := call (PyFloat_FromDouble api value) in
  fail_if_null (object_stolen (mkHandle p)) "Could not allocate float object!".

Definition float__ctor_double (value : float) : M W object :=
  let* p := call (PyFloat_FromDouble api value) in
  fail_if_null (object_stolen (mkHandle p)) "Could not allocate float object!".

(** [weakref::weakref(handle obj, handle callback)]. *)
Definition weakref_ctor (obj callback : handle) : M W object :=
  let* p := call (PyWeakref_NewRef api (handle_ptr obj) (handle_ptr callback)) in
  fail_if_null (object_stolen (mkHandle p)) "Could not allocate weak reference!".

(** [slice::slice(ssize_t, ssize_t, ssize_t)]: three local [int_] objects,
    destroyed in reverse order when the scope is left. *)
Definition slice_ctor (start_ stop_ step_ : Z) : M W object :=
  let this_ := mkHandle nullptr in
  on_throw
    (let* start := int__from_ssize_t api start_ in
     finally
       (let* stop := int__from_ssize_t api stop_ in
        finally
          (let* step := int__from_ssize_t api step_ in
           finally
             (let* p := call (PySlice_New api (handle_ptr start)
                                (handle_ptr stop) (handle_ptr step)) in
              if is_null p
              then pybind11_fail "Could not allocate slice object!"
              else ret (mkHandle p))
             (object_dtor step))
          (object_dtor stop))
       (object_dtor start))
    (object_dtor this_).

(** [capsule::capsule(PyObject *ptr, bool is_borrowed)]: built from a
    temporary, which the move leaves empty. *)
Definition capsule_ctor_ptr (ptr : N) (is_borrowed : bool) : M W object :=
  let* tmp := (if is_borrowed then call (object_borrowed (mkHandle ptr))
               else ret (object_stolen (mkHandle ptr))) in
  finally (ret (mkHandle (m_ptr tmp))) (object_dtor (mkHandle nullptr)).

(** [capsule::capsule] from a value, a name and a destructor taking the
    capsule; [name] may be null. *)
Definition capsule_ctor_named (value : N) (name : option string) (destructor : N)
  : M W object :=
  let* p := call (PyCapsule_New api value name destructor) in
  fail_if_null (object_stolen (mkHandle p)) "Could not allocate capsule object!".

(** The deprecated [capsule::capsule] from a value and a destructor
    taking the capsule. *)
Definition capsule_ctor_deprecated (value destruct : N) : M W object :=
  let* p := call (PyCapsule_New api value None destruct) in
  fail_if_null (object_stolen (mkHandle p)) "Could not allocate capsule object!".

(** The addresses of the two lambdas given to [PyCapsule_New] below. *)
Variable context_destructor_thunk : N.
Variable pointer_destructor_thunk : N.

(** What the first lambda uses: [PyCapsule_GetContext], [PyCapsule_GetPointer]
    (with the name, here always null), and the call of the C function at an
    address with one pointer argument. *)
Variable PyCapsule_GetContext : N → PyState W → N * PyState W.
Variable PyCapsule_GetPointer : N → option string → PyState W → N * PyState W.
Variable call_destructor : N → N → PyState W → PyState W.

(** The body of the first lambda, which the runtime calls with the capsule
    [o] when it deallocates it: the context is fetched and called, as a
    function, on the pointer of the capsule. *)
Definition context_destructor_lambda (o : N) (s : PyState W) : PyState W :=
  let '(destructor, s1) := PyCapsule_GetContext o s in
  let '(ptr, s2) := PyCapsule_GetPointer o None s1 in
  call_destructor destructor ptr s2.

(** [dec_ref] on a capsule created with that lambda as its destructor: when
    the reference given up is the last one, the runtime runs the lambda and
    then frees the capsule. *)
Definition capsule_dec_ref (p : N) (s : PyState W) : PyState W :=
  if is_null p then s
  else match ob_refcnt s !! p with
       | Some c =>
           if c - 1 =? 0
           then with_refcnt (delete p) (context_destructor_lambda p s)
           else with_refcnt (<[p := c - 1]>) s
       | None => s
       end.

(** [capsule::capsule] from a value and a destructor taking the value,
    which is kept as the context of the capsule.  When the body throws, the
    base subobject is destroyed, and with it the reference to the capsule
    just created. *)
Definition capsule_ctor_void (value destructor : N) : M W object :=
  let* p := call (PyCapsule_New api value None context_destructor_thunk) in
  let this_ := mkHandle p in
  on_throw
    ((if is_null (m_ptr this_)
      then pybind11_fail "Could not allocate capsule object!"
      else ret tt) ;;
     let* rc := call (PyCapsule_SetContext api (m_ptr this_) destructor) in
     if negb (rc =? 0) then pybind11_fail "Could not set capsule context!"
     else ret this_)
    (capsule_dec_ref (m_ptr this_)).

(** [capsule::capsule] from a destructor without argument, kept as the
    pointer of the capsule. *)
Definition capsule_ctor_fn (destructor : N) : M W object :=
  let* p := call (PyCapsule_New api destructor None pointer_destructor_thunk) in
  let this_ := mkHandle p in
  on_throw
    (if is_null (m_ptr this_)
     then pybind11_fail "Could not allocate capsule object!"
     else ret this_)
    (object_dtor this_).

(** [tuple::tuple(size_t size)]. *)
Definition tuple_ctor (size : Z) : M W object :=
  let* p := call (PyTuple_New api (ssize_t_of_size_t size)) in
  fail_if_null (object_stolen (mkHandle p)) "Could not allocate tuple object!".

(** [dict::dict()]. *)
Definition dict_ctor : M W object :=
  let* p := call (PyDict_New api) in
  fail_if_null (object_stolen (mkHandle p)) "Could not allocate dict object!".

(** [list::list(size_t size)]. *)
Definition list_ctor (size : Z) : M W object :=
  let* p := call (PyList_New api (ssize_t_of_size_t size)) in
  fail_if_null (object_stolen (mkHandle p)) "Could not allocate list object!".

(** [set::set()]. *)
Definition set_ctor : M W object :=
  let* p := call (PySet_New api nullptr) in
  fail_if_null (object_stolen (mkHandle p)) "Could not allocate set object!".
End Constructors.

(** ** Two concrete runtimes

    [constant_api status pointer]: every call that returns an [int] returns
    [status], every call that returns an object returns [pointer], and the
    state is left as it is.  [PyErr_SetString] sets the indicator to the
    given type with no value object.  Used to evaluate the wrappers on
    concrete inputs. *)
Definition constant_api (status : Z) (pointer : N) : HostAPI unit := {|
  PY_VERSION_HEX := 0x03060000;
  PY_MAJOR_VERSION := 3;
  PyExc_MemoryError := 101%N;
  PyExc_ValueError := 102%N;
  PyExc_IndexError := 103%N;
  PyExc_RuntimeError := 104%N;
  PyErr_SetString := fun ty _ s => PyErr_Restore ty nullptr nullptr s;
  error_string := fun s => (""%string, s);
  PyObject_HasAttr := fun _ _ s => (status, s);
  PyObject_HasAttrString := fun _ _ s => (status, s);
  PyObject_DelAttr := fun _ _ s => (status, s);
  PyObject_DelAttrString := fun _ _ s => (status, s);
  PyObject_GetAttr := fun _ _ s => (pointer, s);
  PyObject_GetAttrString := fun _ _ s => (pointer, s);
  PyObject_SetAttr := fun _ _ _ s => (status, s);
  PyObject_SetAttrString := fun _ _ _ s => (status, s);
  PySequence_SetItem := fun _ _ _ s => (status, s);
  PyList_SetItem := fun _ _ _ s => (status, s);
  PyTuple_SetItem := fun _ _ _ s => (status, s);
  PyIter_Next := fun _ s => (pointer, s);
  PyObject_Length := fun _ s => (status, s);
  PyObject_LengthHint := fun _ _ s => (status, s);
  PyUnicode_FromStringAndSize := fun _ _ s => (pointer, s);
  PyUnicode_FromString := fun _ s => (pointer, s);
  PyObject_Str := fun _ s => (pointer, s);
  PyUnicode_FromEncodedObject := fun _ _ s => (pointer, s);
  PYBIND11_BYTES_FROM_STRING := fun _ s => (pointer, s);
  PYBIND11_BYTES_FROM_STRING_AND_SIZE := fun _ _ s => (pointer, s);
  PyLong_FromLong := fun _ s => (pointer, s);
  PyFloat_FromDouble := fun _ s => (pointer, s);
  PyWeakref_NewRef := fun _ _ s => (pointer, s);
  PySlice_New := fun _ _ _ s => (pointer, s);
  int__from_ssize_t := fun _ =>
    if is_null pointer then pybind11_fail "Could not allocate int object!"
    else ret (mkHandle pointer);
  PyCapsule_New := fun _ _ _ s => (pointer, s);
  PyCapsule_SetContext := fun _ _ s => (status, s);
  PyTuple_New := fun _ s => (pointer, s);
  PyDict_New := fun s => (pointer, s);
  PyList_New := fun _ s => (pointer, s);
  PySet_New := fun _ s => (pointer, s);
  PyUnicode_Check := fun _ _ => false;
  PyUnicode_AsUTF8String := fun _ s => (pointer, s);
  PYBIND11_BYTES_AS_STRING_AND_SIZE := fun _ s => ((status, (""%string, 0)), s)
|}.

(** No memory is left and no object answers: every call reports its
    failure, [-1] or [nullptr]. *)
Definition failing_api : HostAPI unit := constant_api (-1) nullptr.

(** Every call reports success, [0], or returns the object at address
    [7]. *)
Definition answering_api : HostAPI unit := constant_api 0 7%N.

(** A state with one live object at address [7], held once, and no error
    pending; and the same state with an error pending whose type, value and
    traceback are the live objects [11], [12], [13]. *)
Definition quiet_state : PyState unit :=
  mkPyState {[ 7%N := 1 ]} no_error tt.

Definition error_state : PyState unit :=
  mkPyState {[ 7%N := 1; 11%N := 1; 12%N := 1; 13%N := 1 ]}
    (mkPyErr 11%N 12%N 13%N) tt.

(** The error of [error_state] once captured: the indicator is empty and the
    three references are held by an [error_already_set]. *)
Definition captured_state : PyState unit :=
  mkPyState {[ 7%N := 1; 11%N := 1; 12%N := 1; 13%N := 1 ]} no_error tt.

Definition captured_error : error_already_set :=
  mkErrorAlreadySet "" (mkHandle 11) (mkHandle 12) (mkHandle 13).

(** A [builtin_exception] whose [set_error] raises an index error, as
    [pybind11::index_error] does. *)
Definition index_error_fault : cpp_exception unit :=
  exc_builtin_exception "list index out of range"
    (PyErr_SetString failing_api (PyExc_IndexError failing_api)
       "list index out of range").

(** ** Statements of the specification, in its own words *)

Section Specification.
Context {W : Type} (api : HostAPI W).

(** The translation of a native fault as the specification lists it: a
    captured host error is restored; allocation failure gives a memory
    error; domain, invalid-argument and length faults give a value error;
    out-of-range gives an index error; range faults give a value error;
    any other fault that carries a message gives a runtime error with that
    message; anything else gives a runtime error with the fixed message. *)
Definition listed_translation (f : cpp_exception W) (s : PyState W) : PyState W :=
  match f with
  | exc_error_already_set e =>
      PyErr_Restore (m_ptr (m_type e)) (m_ptr (m_value e)) (m_ptr (m_trace e)) s
  | exc_builtin_exception msg _ =>
      PyErr_SetString api (PyExc_RuntimeError api) msg s
  | exc_std c msg =>
      if catches std_bad_alloc c then
        PyErr_SetString api (PyExc_MemoryError api) msg s
      else if catches std_domain_error c || catches std_invalid_argument c
              || catches std_length_error c then
        PyErr_SetString api (PyExc_ValueError api) msg s
      else if catches std_out_of_range c then
        PyErr_SetString api (PyExc_IndexError api) msg s
      else if catches std_range_error c then
        PyErr_SetString api (PyExc_ValueError api) msg s
      else PyErr_SetString api (PyExc_RuntimeError api) msg s
  | exc_foreign =>
      PyErr_SetString api (PyExc_RuntimeError api)
        "Caught an unknown exception!" s
  end.
End Specification.

(** * More of the object layer *)

(** ** Further calls into the host runtime

    The calls and constants used by the rest of [pytypes] and by [embed].
    [PyDict_Next] takes the current contents of its three in-out arguments
    and returns the contents it leaves.  [sys_path_append_cwd] stands for
    [module::import("sys").attr("path").cast<list>().append(".")], built
    from templates of the headers. *)
Record ObjectAPI (W : Type) := mkObjectAPI {
  Py_None : N;
  Py_True : N;
  Py_False : N;
  PyObject_IsInstance : N → N → PyState W → Z * PyState W;
  PyObject_Hash : N → PyState W → Z * PyState W;
  PyObject_GetItem : N → N → PyState W → N * PyState W;
  PyObject_SetItem : N → N → N → PyState W → Z * PyState W;
  PySequence_GetItem : N → Z → PyState W → N * PyState W;
  PyList_GetItem : N → Z → PyState W → N * PyState W;
  PyTuple_GetItem : N → Z → PyState W → N * PyState W;
  PySequence_Fast_ITEMS : N → PyState W → Z;
  PyDict_Next : N → Z → N → N → PyState W → (Z * (Z * (N * N))) * PyState W;
  PyObject_GetIter : N → PyState W → N * PyState W;
  PyObject_IsTrue : N → PyState W → Z * PyState W;
  PyLong_AsLong : N → PyState W → Z * PyState W;
  PyTuple_Size : N → PyState W → Z * PyState W;
  PyDict_Size : N → PyState W → Z * PyState W;
  PySequence_Size : N → PyState W → Z * PyState W;
  PyList_Size : N → PyState W → Z * PyState W;
  PySet_Size : N → PyState W → Z * PyState W;
  PyObject_Repr : N → PyState W → N * PyState W;
  Py_IsInitialized : PyState W → Z;
  Py_InitializeEx : Z → PyState W → PyState W;
  sys_path_append_cwd : M W unit
}.
Arguments Py_None {W} _.
Arguments Py_True {W} _.
Arguments Py_False {W} _.
Arguments PyObject_IsInstance {W} _ _ _ _.
Arguments PyObject_Hash {W} _ _ _.
Arguments PyObject_GetItem {W} _ _ _ _.
Arguments PyObject_SetItem {W} _ _ _ _ _.
Arguments PySequence_GetItem {W} _ _ _ _.
Arguments PyList_GetItem {W} _ _ _ _.
Arguments PyTuple_GetItem {W} _ _ _ _.
Arguments PySequence_Fast_ITEMS {W} _ _ _.
Arguments PyDict_Next {W} _ _ _ _ _ _.
Arguments PyObject_GetIter {W} _ _ _.
Arguments PyObject_IsTrue {W} _ _ _.
Arguments PyLong_AsLong {W} _ _ _.
Arguments PyTuple_Size {W} _ _ _.
Arguments PyDict_Size {W} _ _ _.
Arguments PySequence_Size {W} _ _ _.
Arguments PyList_Size {W} _ _ _.
Arguments PySet_Size {W} _ _ _.
Arguments PyObject_Repr {W} _ _ _.
Arguments Py_IsInitialized {W} _ _.
Arguments Py_InitializeEx {W} _ _ _.
Arguments sys_path_append_cwd {W} _.

(** ** The other constructors of [object], and sequences of count changes *)

Section ObjectLifecycle.
Context {W : Type}.

(** The deprecated [object(handle h, bool is_borrowed)]. *)
Definition object_ctor_flag (h : handle) (is_borrowed : bool) (s : PyState W)
  : object * PyState W :=
  (h, if is_borrowed then handle_inc_ref h s else s).

(** The copy constructor [object(const object &o)]. *)
Definition object_copy (o : object) (s : PyState W) : object * PyState W :=
  (mkHandle (m_ptr o), handle_inc_ref (mkHandle (m_ptr o)) s).

(** The move constructor: the new object, and [other] after the call. *)
Definition object_move (other : object) : object * object :=
  (mkHandle (m_ptr other), mkHandle nullptr).

(** [Py_DECREF(p)], for a [p] known not to be null. *)
Definition Py_DECREF (p : N) (s : PyState W) : PyState W :=
  match ob_refcnt s !! p with
  | Some c =>
      if c - 1 =? 0 then with_refcnt (delete p) s
      else with_refcnt (<[p := c - 1]>) s
  | None => s
  end.

(** A call of [inc_ref] or of [dec_ref] on a handle, and a sequence of such
    calls on the same handle. *)
Inductive ref_op :=
  | op_inc_ref
  | op_dec_ref.

Definition run_ref_op (h : handle) (s : PyState W) (op : ref_op) : PyState W :=
  match op with
  | op_inc_ref => handle_inc_ref h s
  | op_dec_ref => handle_dec_ref h s
  end.

Definition run_ref_ops (h : handle) (ops : list ref_op) (s : PyState W) : PyState W :=
  fold_left (run_ref_op h) ops s.
End ObjectLifecycle.

(** Increments minus decrements of a sequence of calls. *)
Definition ref_op_delta (op : ref_op) : Z :=
  match op with
  | op_inc_ref => 1
  | op_dec_ref => -1
  end.

Fixpoint ref_balance (ops : list ref_op) : Z :=
  match ops with
  | [] => 0
  | op :: ops' => ref_op_delta op + ref_balance ops'
  end.

(** ** More builtins and accessor policies *)

Section MoreBuiltins.
Context {W : Type} (api : HostAPI W) (ext : ObjectAPI W).

(** [isinstance(handle obj, handle type)]. *)
Definition isinstance (obj type : handle) : M W bool :=
  let* result := call (PyObject_IsInstance ext (handle_ptr obj) (handle_ptr type)) in
  if result =? -1 then throw_error_already_set api
  else ret (negb (result =? 0)).

(** [hash(handle obj)]. *)
Definition hash (obj : handle) : M W Z :=
  let* h := call (PyObject_Hash ext (handle_ptr obj)) in
  if h =? -1 then throw_error_already_set api else ret h.

(** [accessor_policies::obj_attr] and [str_attr]. *)
Definition obj_attr_get (obj key : handle) : M W object := getattr api obj key.

Definition obj_attr_set (obj key val : handle) : M W unit := setattr api obj key val.

Definition str_attr_get (obj : handle) (key : string) : M W object :=
  getattr_str api obj key.

Definition str_attr_set (obj : handle) (key : string) (val : handle) : M W unit :=
  setattr_str api obj key val.

(** [accessor_policies::generic_item]. *)
Definition generic_item_get (obj key : handle) : M W object :=
  let* result := call (PyObject_GetItem ext (handle_ptr obj) (handle_ptr key)) in
  if is_null result then throw_error_already_set api
  else ret (reinterpret_steal result).

Definition generic_item_set (obj key val : handle) : M W unit :=
  let* r := call (PyObject_SetItem ext (handle_ptr obj) (handle_ptr key)
                    (handle_ptr val)) in
  if negb (r =? 0) then throw_error_already_set api else ret tt.

(** [accessor_policies::sequence_item::get]: the result is a new reference,
    which is stolen. *)
Definition sequence_item_get (obj : handle) (index : Z) : M W object :=
  let* result := call (PySequence_GetItem ext (handle_ptr obj)
                         (ssize_t_of_size_t index)) in
  if is_null result then throw_error_already_set api
  else ret (reinterpret_steal result).

(** [accessor_policies::list_item::get] and [tuple_item::get]: the result is
    borrowed. *)
Definition list_item_get (obj : handle) (index : Z) : M W object :=
  let* result := call (PyList_GetItem ext (handle_ptr obj)
                         (ssize_t_of_size_t index)) in
  if is_null result then throw_error_already_set api
  else reinterpret_borrow (mkHandle result).

Definition tuple_item_get (obj : handle) (index : Z) : M W object :=
  let* result := call (PyTuple_GetItem ext (handle_ptr obj)
                         (ssize_t_of_size_t index)) in
  if is_null result then throw_error_already_set api
  else reinterpret_borrow (mkHandle result).

(** [detail::PyIterable_Check]. *)
Definition PyIterable_Check (obj : N) (s : PyState W) : bool * PyState W :=
  let '(iter, s1) := PyObject_GetIter ext obj s in
  if negb (is_null iter) then (true, Py_DECREF iter s1)
  else (false, PyErr_Clear s1).

(** [iter(handle obj)]: the new iterator has nothing cached. *)
Definition iter (obj : handle) : M W iterator :=
  let* result := call (PyObject_GetIter ext (handle_ptr obj)) in
  if is_null result then throw_error_already_set api
  else ret (mkIterator (reinterpret_steal result) (mkHandle nullptr)).

(** [repr(handle h)]. *)
Definition repr (h : handle) : M W object :=
  let* str_value := call (PyObject_Repr ext (handle_ptr h)) in
  (if is_null str_value then throw_error_already_set api else ret tt) ;;
  if PY_MAJOR_VERSION api <? 3 then
    let* unicode := call (PyUnicode_FromEncodedObject api str_value "utf-8") in
    exec (Py_XDECREF str_value) ;;
    (if is_null unicode then throw_error_already_set api else ret tt) ;;
    ret (reinterpret_steal unicode)
  else ret (reinterpret_steal str_value).

(** [none::none()], [bool_::bool_()] and [bool_::bool_(bool value)]. *)
Definition none_ctor : M W object :=
  call (object_borrowed (mkHandle (Py_None ext))).

Definition bool__ctor_default : M W object :=
  call (object_borrowed (mkHandle (Py_False ext))).

Definition bool__ctor (value : bool) : M W object :=
  call (object_borrowed
          (mkHandle (if value then Py_True ext else Py_False ext))).

(** [bool_::operator bool]: the runtime is asked only when the reference is
    not empty. *)
Definition bool__to_bool (this_ : object) (s : PyState W) : bool * PyState W :=
  if negb (is_null (m_ptr this_)) then
    let '(v, s1) := PyLong_AsLong ext (m_ptr this_) s in (negb (v =? 0), s1)
  else (false, s).

(** [bool_::raw_bool]. *)
Definition bool__raw_bool (op : N) (s : PyState W) : N * PyState W :=
  let '(value, s1) := PyObject_IsTrue ext op s in
  if value =? -1 then (nullptr, s1)
  else
    let h := mkHandle (if negb (value =? 0) then Py_True ext else Py_False ext) in
    (handle_ptr h, handle_inc_ref h s1).

(** The [size()] and [empty()] of [tuple], [dict], [sequence], [list] and
    [set] have one shape: the result of the size query converted to
    [size_t], and its comparison with zero. *)
Definition size_via (query : N → PyState W → Z * PyState W) (this_ : object)
    (s : PyState W) : Z * PyState W :=
  let '(r, s1) := query (m_ptr this_) s in (size_t_of_ssize_t r, s1).

Definition empty_via (query : N → PyState W → Z * PyState W) (this_ : object)
    (s : PyState W) : bool * PyState W :=
  let '(n, s1) := size_via query this_ s in (n =? 0, s1).

Definition tuple_size := size_via (PyTuple_Size ext).
Definition tuple_empty := empty_via (PyTuple_Size ext).
Definition dict_size := size_via (PyDict_Size ext).
Definition dict_empty := empty_via (PyDict_Size ext).
Definition sequence_size := size_via (PySequence_Size ext).
Definition sequence_empty := empty_via (PySequence_Size ext).
Definition list_size := size_via (PyList_Size ext).
Definition list_empty := empty_via (PyList_Size ext).
Definition set_size := size_via (PySet_Size ext).
Definition set_empty := empty_via (PySet_Size ext).

(** [initialize_interpreter(bool init_signal_handlers)]. *)
Definition initialize_interpreter (init_signal_handlers : bool) : M W unit :=
  fun s =>
    ((if negb (Py_IsInitialized ext s =? 0)
      then pybind11_fail "The interpreter is already running"
      else ret tt) ;;
     exec (Py_InitializeEx ext (if init_signal_handlers then 1 else 0)) ;;
     sys_path_append_cwd ext) s.
End MoreBuiltins.

(** ** Iterator policies *)

(** [ssize_t] arithmetic: the result of an operation, brought back into the
    64-bit two's-complement range. *)
Definition ssize_t_wrap (x : Z) : Z := (x + 2 ^ 63) mod 2 ^ 64 - 2 ^ 63.

Definition in_ssize_t (x : Z) : Prop := - 2 ^ 63 ≤ x < 2 ^ 63.

(** [sequence_slow_readwrite]: the owner and an [ssize_t] index. *)
Record sequence_slow_readwrite := mkSlowReadwrite {
  srw_obj : handle;
  srw_index : Z
}.

Definition sequence_slow_readwrite_ctor (obj : handle) (index : Z)
  : sequence_slow_readwrite :=
  mkSlowReadwrite obj index.

(** [dereference]: the accessor [{obj, static_cast<size_t>(index)}], as the
    owner and the key it stores. *)
Definition sequence_slow_readwrite_dereference (it : sequence_slow_readwrite)
  : handle * Z :=
  (srw_obj it, size_t_of_ssize_t (srw_index it)).

Definition sequence_slow_readwrite_increment (it : sequence_slow_readwrite)
  : sequence_slow_readwrite :=
  mkSlowReadwrite (srw_obj it) (ssize_t_wrap (srw_index it + 1)).

Definition sequence_slow_readwrite_decrement (it : sequence_slow_readwrite)
  : sequence_slow_readwrite :=
  mkSlowReadwrite (srw_obj it) (ssize_t_wrap (srw_index it - 1)).

Definition sequence_slow_readwrite_advance (it : sequence_slow_readwrite) (n : Z)
  : sequence_slow_readwrite :=
  mkSlowReadwrite (srw_obj it) (ssize_t_wrap (srw_index it + n)).

Definition sequence_slow_readwrite_equal (it b : sequence_slow_readwrite) : bool :=
  srw_index it =? srw_index b.

Definition sequence_slow_readwrite_distance_to (it b : sequence_slow_readwrite) : Z :=
  ssize_t_wrap (srw_index it - srw_index b).

(** [sequence_fast_readonly]: the address of a slot of the item array; a
    slot is 8 bytes wide. *)
Record sequence_fast_readonly := mkFastReadonly { sfr_ptr : Z }.

Definition slot_add (p n : Z) : Z := (p + 8 * n) mod 2 ^ 64.

Definition slot_diff (p q : Z) : Z := Z.quot (ssize_t_wrap (p - q)) 8.

Section IteratorPolicies.
Context {W : Type} (ext : ObjectAPI W).

Definition sequence_fast_readonly_ctor (obj : handle) (n : Z) (s : PyState W)
  : sequence_fast_readonly :=
  mkFastReadonly (slot_add (PySequence_Fast_ITEMS ext (handle_ptr obj) s) n).

(** [dict_readonly]: the owner, the position of the traversal, and the key
    and value last produced. *)
Record dict_readonly := mkDictReadonly {
  dro_obj : handle;
  dro_key : N;
  dro_value : N;
  dro_pos : Z
}.

Definition dict_readonly_increment (it : dict_readonly) (s : PyState W)
  : dict_readonly * PyState W :=
  let '((rc, (pos', (key', value'))), s1) :=
    PyDict_Next ext (handle_ptr (dro_obj it)) (dro_pos it) (dro_key it)
      (dro_value it) s in
  if rc =? 0 then (mkDictReadonly (dro_obj it) key' value' (-1), s1)
  else (mkDictReadonly (dro_obj it) key' value' pos', s1).

(** [dict_readonly(handle obj, ssize_t pos)]; [key0] and [value0] are what
    the two members hold before the first [increment]. *)
Definition dict_readonly_ctor (obj : handle) (pos : Z) (key0 value0 : N)
    (s : PyState W) : dict_readonly * PyState W :=
  dict_readonly_increment (mkDictReadonly obj key0 value0 pos) s.

Definition dict_readonly_dereference (it : dict_readonly) : handle * handle :=
  (mkHandle (dro_key it), mkHandle (dro_value it)).

Definition dict_readonly_equal (it b : dict_readonly) : bool :=
  dro_pos it =? dro_pos b.
End IteratorPolicies.

Definition sequence_fast_readonly_increment (it : sequence_fast_readonly)
  : sequence_fast_readonly :=
  mkFastReadonly (slot_add (sfr_ptr it) 1).

Definition sequence_fast_readonly_decrement (it : sequence_fast_readonly)
  : sequence_fast_readonly :=
  mkFastReadonly (slot_add (sfr_ptr it) (-1)).

Definition sequence_fast_readonly_advance (it : sequence_fast_readonly) (n : Z)
  : sequence_fast_readonly :=
  mkFastReadonly (slot_add (sfr_ptr it) n).

Definition sequence_fast_readonly_equal (it b : sequence_fast_readonly) : bool :=
  sfr_ptr it =? sfr_ptr b.

Definition sequence_fast_readonly_distance_to (it b : sequence_fast_readonly) : Z :=
  slot_diff (sfr_ptr it) (sfr_ptr b).

(** ** Hashing and comparing type names ([detail/internals]) *)

(** The bytes of a C string are read up to the first zero byte; the end of
    the [string] stands for the terminator. *)
Definition byte_of (ch : ascii) : Z := Z.of_N (N_of_ascii ch).

(** The loop of [type_hash::operator()]: [hash = (hash * 33) ^ c] on
    [size_t], for every byte before the terminator. *)
Fixpoint type_hash_loop (ptr : string) (hash : Z) : Z :=
  match ptr with
  | EmptyString => hash
  | String ch rest =>
      let c := byte_of ch in
      if c =? 0 then hash
      else type_hash_loop rest (Z.lxor ((hash * 33) mod 2 ^ 64) c)
  end.

(** [strcmp]: the difference of the first two bytes that differ, zero when
    both strings end together. *)
Fixpoint strcmp (a b : string) : Z :=
  match a, b with
  | EmptyString, EmptyString => 0
  | EmptyString, String cb _ => 0 - byte_of cb
  | String ca _, EmptyString => byte_of ca - 0
  | String ca a', String cb b' =>
      if negb (byte_of ca =? byte_of cb) then byte_of ca - byte_of cb
      else if byte_of ca =? 0 then 0
      else strcmp a' b'
  end.

(** The characters of a C string: what comes before the first zero byte. *)
Fixpoint c_str (s : string) : string :=
  match s with
  | EmptyString => EmptyString
  | String ch rest => if byte_of ch =? 0 then EmptyString else String ch (c_str rest)
  end.

Section TypeNames.
(** What the memory holds at the address a [name()] returns. *)
Variable name_at : N → string.

(** [std::hash<const void *>], whose result is a [size_t]. *)
Variable hash_pointer : N → Z.

(** [type_hash::operator()], on the address of the name of the
    [type_index]. *)
Definition type_hash (t : N) : Z := type_hash_loop (name_at t) 5381.

(** [type_equal_to::operator()], and [same_type] where the library is not
    libstdc++: the same address, or the same characters. *)
Definition type_equal_to (lhs rhs : N) : bool :=
  N.eqb lhs rhs || (strcmp (name_at lhs) (name_at rhs) =? 0).

Definition same_type (lhs rhs : N) : bool :=
  N.eqb lhs rhs || (strcmp (name_at lhs) (name_at rhs) =? 0).

(** [overload_hash::operator()] on the pair [(first, second)]. *)
Definition overload_hash (first second : N) : Z :=
  let value := hash_pointer first mod 2 ^ 64 in
  Z.lxor value
    ((hash_pointer second mod 2 ^ 64 + 0x9e3779b9
      + Z.shiftl value 6 mod 2 ^ 64 + Z.shiftr value 2) mod 2 ^ 64).
End TypeNames.

(** ** Shared data of the internals registry *)

(** The [internals] structure, as far as [get_shared_data] and
    [set_shared_data] use it: the table [shared_data] from names to
    pointers; [internals_rest] is everything else it holds. *)
Record internals (R : Type) := mkInternals {
  shared_data : gmap string N;
  internals_rest : R
}.
Arguments mkInternals {R} _ _.
Arguments shared_data {R} _.
Arguments internals_rest {R} _.

(** [get_shared_data(name)], on the registry [get_internals()] returns. *)
Definition get_shared_data {R} (i : internals R) (name : string) : N :=
  match shared_data i !! name with
  | Some p => p
  | None => nullptr
  end.

(** [set_shared_data(name, data)]: the pointer returned and the registry
    after the call. *)
Definition set_shared_data {R} (i : internals R) (name : string) (data : N)
  : N * internals R :=
  (data, mkInternals (<[name := data]> (shared_data i)) (internals_rest i)).

(** ** Global options ([options]) *)

(** [options::state], with the two members the sources use. *)
Record options_state := mkOptionsState {
  show_user_defined_docstrings : bool;
  show_function_signatures : bool
}.

(** An [options] object holds the state it found. *)
Record options := mkOptions { previous_state : options_state }.

(** [options::options()] and [options::~options()], on the value of
    [global_state()]. *)
Definition options_ctor (global : options_state) : options * options_state :=
  (mkOptions global, global).

Definition options_dtor (this_ : options) (global : options_state) : options_state :=
  previous_state this_.

(** The four setters. *)
Definition options_disable_user_defined_docstrings (global : options_state)
  : options_state :=
  mkOptionsState false (show_function_signatures global).

Definition options_enable_user_defined_docstrings (global : options_state)
  : options_state :=
  mkOptionsState true (show_function_signatures global).

Definition options_disable_function_signatures (global : options_state)
  : options_state :=
  mkOptionsState (show_user_defined_docstrings global) false.

Definition options_enable_function_signatures (global : options_state)
  : options_state :=
  mkOptionsState (show_user_defined_docstrings global) true.

(** The two getters. *)
Definition options_show_user_defined_docstrings (global : options_state) : bool :=
  show_user_defined_docstrings global.

Definition options_show_function_signatures (global : options_state) : bool :=
  show_function_signatures global.

(** A call of one of the setters, and a sequence of such calls. *)
Inductive options_setter :=
  | set_docstrings (on : bool)
  | set_signatures (on : bool).

Definition run_setter (global : options_state) (c : options_setter) : options_state :=
  match c with
  | set_docstrings true => options_enable_user_defined_docstrings global
  | set_docstrings false => options_disable_user_defined_docstrings global
  | set_signatures true => options_enable_function_signatures global
  | set_signatures false => options_disable_function_signatures global
  end.

Definition run_setters (cs : list options_setter) (global : options_state)
  : options_state :=
  fold_left run_setter cs global.

(** A scope [{ options o; setters...; }]: construction, the calls, and
    destruction at the closing brace. *)
Definition options_scope (cs : list options_setter) (global : options_state)
  : options_state :=
  let '(o, g1) := options_ctor global in
  options_dtor o (run_setters cs g1).

(** The last value a sequence of calls gives to each flag, if any. *)
Fixpoint last_docstrings (cs : list options_setter) : option bool :=
  match cs with
  | [] => None
  | c :: cs' =>
      match last_docstrings cs' with
      | Some b => Some b
      | None => match c with set_docstrings b => Some b | _ => None end
      end
  end.

Fixpoint last_signatures (cs : list options_setter) : option bool :=
  match cs with
  | [] => None
  | c :: cs' =>
      match last_signatures cs' with
      | Some b => Some b
      | None => match c with set_signatures b => Some b | _ => None end
      end
  end.

(** Code that uses [options]: a call of a setter, or a nested scope
    [{ options o; ...; }] with its own [options] object. *)
#[warnings="-register-all"]
Inductive options_stmt :=
  | stmt_set (c : options_setter)
  | stmt_scope (body : list options_stmt).

Fixpoint run_stmt (global : options_state) (st : options_stmt) : options_state :=
  match st with
  | stmt_set c => run_setter global c
  | stmt_scope body =>
      let '(o, g1) := options_ctor global in
      options_dtor o (fold_left run_stmt body g1)
  end.

Definition run_stmts (sts : list options_stmt) (global : options_state)
  : options_state :=
  fold_left run_stmt sts global.

(** The setter calls of a piece of code that are not inside a scope. *)
Fixpoint outer_setters (sts : list options_stmt) : list options_setter :=
  match sts with
  | [] => []
  | stmt_set c :: rest => c :: outer_setters rest
  | stmt_scope _ :: rest => outer_setters rest
  end.


(** ** A second pair of concrete runtimes *)

(** Every [int] call returns [status], every object call returns [pointer],
    the three singletons are the live objects [21], [22], [23], an
    interpreter runs exactly when [running] is not zero, and the state is
    left as it is. *)
Definition constant_ext (status : Z) (pointer : N) (running : Z) : ObjectAPI unit := {|
  Py_None := 21%N;
  Py_True := 22%N;
  Py_False := 23%N;
  PyObject_IsInstance := fun _ _ s => (status, s);
  PyObject_Hash := fun _ s => (status, s);
  PyObject_GetItem := fun _ _ s => (pointer, s);
  PyObject_SetItem := fun _ _ _ s => (status, s);
  PySequence_GetItem := fun _ _ s => (pointer, s);
  PyList_GetItem := fun _ _ s => (pointer, s);
  PyTuple_GetItem := fun _ _ s => (pointer, s);
  PySequence_Fast_ITEMS := fun _ _ => 4096;
  PyDict_Next := fun _ pos key value s => ((status, (pos, (key, value))), s);
  PyObject_GetIter := fun _ s => (pointer, s);
  PyObject_IsTrue := fun _ s => (status, s);
  PyLong_AsLong := fun p s => (if N.eqb p 22 then 1 else 0, s);
  PyTuple_Size := fun _ s => (status, s);
  PyDict_Size := fun _ s => (status, s);
  PySequence_Size := fun _ s => (status, s);
  PyList_Size := fun _ s => (status, s);
  PySet_Size := fun _ s => (status, s);
  PyObject_Repr := fun _ s => (pointer, s);
  Py_IsInitialized := fun _ => running;
  Py_InitializeEx := fun _ s => s;
  sys_path_append_cwd := ret tt
|}.

Definition failing_ext : ObjectAPI unit := constant_ext (-1) nullptr 1.

Definition answering_ext : ObjectAPI unit := constant_ext 0 7%N 0.

(** A state with the object [7] held twice and the singletons alive. *)
Definition shared_state : PyState unit :=
  mkPyState {[ 7%N := 2; 21%N := 5; 22%N := 5; 23%N := 5 ]} no_error tt.

(** ** Runtimes with a behaviour of their own

    [custom_api]: as [constant_api], over any [world], with
    [detail::error_string], [PySequence_SetItem] and [PyIter_Next] given. *)
Definition custom_api {W : Type} (status : Z) (pointer : N)
    (es : PyState W → string * PyState W)
    (sequence_set : N → Z → N → PyState W → Z * PyState W)
    (iter_next : N → PyState W → N * PyState W) : HostAPI W := {|
  PY_VERSION_HEX := 0x03060000;
  PY_MAJOR_VERSION := 3;
  PyExc_MemoryError := 101%N;
  PyExc_ValueError := 102%N;
  PyExc_IndexError := 103%N;
  PyExc_RuntimeError := 104%N;
  PyErr_SetString := fun ty _ s => PyErr_Restore ty nullptr nullptr s;
  error_string := es;
  PyObject_HasAttr := fun _ _ s => (status, s);
  PyObject_HasAttrString := fun _ _ s => (status, s);
  PyObject_DelAttr := fun _ _ s => (status, s);
  PyObject_DelAttrString := fun _ _ s => (status, s);
  PyObject_GetAttr := fun _ _ s => (pointer, s);
  PyObject_GetAttrString := fun _ _ s => (pointer, s);
  PyObject_SetAttr := fun _ _ _ s => (status, s);
  PyObject_SetAttrString := fun _ _ _ s => (status, s);
  PySequence_SetItem := sequence_set;
  PyList_SetItem := fun _ _ _ s => (status, s);
  PyTuple_SetItem := fun _ _ _ s => (status, s);
  PyIter_Next := iter_next;
  PyObject_Length := fun _ s => (status, s);
  PyObject_LengthHint := fun _ _ s => (status, s);
  PyUnicode_FromStringAndSize := fun _ _ s => (pointer, s);
  PyUnicode_FromString := fun _ s => (pointer, s);
  PyObject_Str := fun _ s => (pointer, s);
  PyUnicode_FromEncodedObject := fun _ _ s => (pointer, s);
  PYBIND11_BYTES_FROM_STRING := fun _ s => (pointer, s);
  PYBIND11_BYTES_FROM_STRING_AND_SIZE := fun _ _ s => (pointer, s);
  PyLong_FromLong := fun _ s => (pointer, s);
  PyFloat_FromDouble := fun _ s => (pointer, s);
  PyWeakref_NewRef := fun _ _ s => (pointer, s);
  PySlice_New := fun _ _ _ s => (pointer, s);
  int__from_ssize_t := fun _ =>
    if is_null pointer then pybind11_fail "Could not allocate int object!"
    else ret (mkHandle pointer);
  PyCapsule_New := fun _ _ _ s => (pointer, s);
  PyCapsule_SetContext := fun _ _ s => (status, s);
  PyTuple_New := fun _ s => (pointer, s);
  PyDict_New := fun s => (pointer, s);
  PyList_New := fun _ s => (pointer, s);
  PySet_New := fun _ s => (pointer, s);
  PyUnicode_Check := fun _ _ => false;
  PyUnicode_AsUTF8String := fun _ s => (pointer, s);
  PYBIND11_BYTES_AS_STRING_AND_SIZE := fun _ s => ((status, (""%string, 0)), s)
|}.

(** A runtime whose containers have empty slots.  The stealing calls
    ([PyList_SetItem], [PyTuple_SetItem]) store the pointer and succeed
    without touching a count; the call that does not steal
    ([PySequence_SetItem]) takes a reference of its own on what it stores. *)
Definition taking_api : HostAPI unit :=
  custom_api 0 7%N (fun s => (""%string, s))
    (fun _ _ val s => (0, Py_XINCREF val s))
    (fun _ s => (nullptr, s)).

(** A runtime whose [detail::error_string] normalizes the pending error
    while it formats it: the value of the error is replaced by a new
    exception instance, at address [14], and the old value is given up. *)
Definition normalizing_error_string (s : PyState unit) : string * PyState unit :=
  (""%string,
   if is_null (curexc_type (curexc s)) then s
   else
     with_curexc
       (mkPyErr (curexc_type (curexc s)) 14%N (curexc_traceback (curexc s)))
       (Py_XDECREF (curexc_value (curexc s)) (with_refcnt (<[14%N := 1]>) s))).

Definition normalizing_api : HostAPI unit :=
  custom_api (-1) nullptr normalizing_error_string
    (fun _ _ _ s => (-1, s))
    (fun _ s => (nullptr, s)).

(** A runtime whose iterators follow a script, kept as the [world]: each
    poll takes the next entry of the script, a null entry meaning that the
    iterator signals exhaustion at that poll, any other entry being the
    element produced (a new reference).  The empty script signals
    exhaustion. *)
Definition scripted_next (it : N) (s : PyState (list N)) : N * PyState (list N) :=
  match world s with
  | [] => (nullptr, s)
  | q :: rest => (q, Py_XINCREF q (mkPyState (ob_refcnt s) (curexc s) rest))
  end.

Definition scripted_api : HostAPI (list N) :=
  custom_api 0 nullptr (fun s => (""%string, s))
    (fun _ _ _ s => (0, s))
    scripted_next.

(** An iterator (the object [9]) that signals exhaustion at its first poll
    and produces the object [7] at the next one. *)
Definition resuming_state : PyState (list N) :=
  mkPyState {[ 7%N := 1; 9%N := 1 ]} no_error [nullptr; 7%N].

(** A runtime whose five size queries give five different answers. *)
Definition sized_ext (t d q l e : Z) : ObjectAPI unit := {|
  Py_None := 21%N;
  Py_True := 22%N;
  Py_False := 23%N;
  PyObject_IsInstance := fun _ _ s => (0, s);
  PyObject_Hash := fun _ s => (0, s);
  PyObject_GetItem := fun _ _ s => (nullptr, s);
  PyObject_SetItem := fun _ _ _ s => (0, s);
  PySequence_GetItem := fun _ _ s => (nullptr, s);
  PyList_GetItem := fun _ _ s => (nullptr, s);
  PyTuple_GetItem := fun _ _ s => (nullptr, s);
  PySequence_Fast_ITEMS := fun _ _ => 4096;
  PyDict_Next := fun _ pos key value s => ((0, (pos, (key, value))), s);
  PyObject_GetIter := fun _ s => (nullptr, s);
  PyObject_IsTrue := fun _ s => (0, s);
  PyLong_AsLong := fun _ s => (0, s);
  PyTuple_Size := fun _ s => (t, s);
  PyDict_Size := fun _ s => (d, s);
  PySequence_Size := fun _ s => (q, s);
  PyList_Size := fun _ s => (l, s);
  PySet_Size := fun _ s => (e, s);
  PyObject_Repr := fun _ s => (nullptr, s);
  Py_IsInitialized := fun _ => 1;
  Py_InitializeEx := fun _ s => s;
  sys_path_append_cwd := ret tt
|}.

(** The tuple query fails, the dict is empty, the sequence holds 3
    elements, the list 5, and the set query answers the least [ssize_t]. *)
Definition five_sizes_ext : ObjectAPI unit := sized_ext (-1) 0 3 5 (- 2 ^ 63).

(** * Properties *)

(** ** Reference counts *)

Section RefcountFacts.
Context {W : Type}.
Implicit Types (s : PyState W) (p q : N) (c : Z).

Lemma is_null_false p : p ≠ nullptr → is_null p = false.
Proof. intros Hp. unfold is_null. by apply N.eqb_neq. Qed.

Lemma is_null_true p : is_null p = true → p = nullptr.
Proof. unfold is_null. by intros ?%N.eqb_eq. Qed.

Lemma Py_XINCREF_null s : Py_XINCREF nullptr s = s.
Proof. reflexivity. Qed.

Lemma Py_XDECREF_null s : Py_XDECREF nullptr s = s.
Proof. reflexivity. Qed.

Lemma Py_XINCREF_count p c s :
  p ≠ nullptr → ob_refcnt s !! p = Some c →
  ob_refcnt (Py_XINCREF p s) !! p = Some (c + 1).
Proof.
  intros Hp Hc. unfold Py_XINCREF. rewrite (is_null_false _ Hp). simpl.
  rewrite lookup_alter_eq, Hc. simpl. f_equal; lia.
Qed.

Lemma Py_XINCREF_other p q s :
  p ≠ q → ob_refcnt (Py_XINCREF p s) !! q = ob_refcnt s !! q.
Proof.
  intros Hne. unfold Py_XINCREF. destruct (is_null p); [done|]. simpl.
  by rewrite lookup_alter_ne.
Qed.

Lemma Py_XINCREF_curexc p s : curexc (Py_XINCREF p s) = curexc s.
Proof. unfold Py_XINCREF. by destruct (is_null p). Qed.

Lemma Py_XINCREF_world p s : world (Py_XINCREF p s) = world s.
Proof. unfold Py_XINCREF. by destruct (is_null p). Qed.

Lemma Py_XDECREF_curexc p s : curexc (Py_XDECREF p s) = curexc s.
Proof.
  unfold Py_XDECREF. destruct (is_null p); [done|].
  destruct (ob_refcnt s !! p) as [c|]; [|done].
  by destruct (c - 1 =? 0).
Qed.

Lemma Py_XINCREF_as_insert p c s :
  p ≠ nullptr → ob_refcnt s !! p = Some c →
  Py_XINCREF p s = with_refcnt (<[p := c + 1]>) s.
Proof.
  intros Hp Hc. unfold Py_XINCREF. rewrite (is_null_false _ Hp).
  unfold with_refcnt. f_equal. apply map_eq. intros q.
  destruct (decide (p = q)) as [->|Hne].
  - rewrite lookup_alter_eq, lookup_insert_eq, Hc. simpl. f_equal; lia.
  - by rewrite lookup_alter_ne, lookup_insert_ne.
Qed.

(** Taking a reference and giving it back leaves a held object as it
    was. *)
Lemma Py_XDECREF_XINCREF p c s :
  ob_refcnt s !! p = Some c → 0 < c →
  Py_XDECREF p (Py_XINCREF p s) = s.
Proof.
  intros Hc Hpos.
  destruct (is_null p) eqn:Hnull.
  { apply is_null_true in Hnull as ->. reflexivity. }
  assert (p ≠ nullptr) as Hp.
  { intros ->. discriminate. }
  rewrite (Py_XINCREF_as_insert p c s Hp Hc).
  unfold Py_XDECREF. rewrite Hnull. simpl. rewrite lookup_insert_eq.
  replace (c + 1 - 1) with c by lia.
  destruct (c =? 0) eqn:Hz; [apply Z.eqb_eq in Hz; lia|].
  destruct s as [m e w]. unfold with_refcnt. simpl in *. f_equal.
  rewrite insert_insert_eq. by apply insert_id.
Qed.

(** In the other order the last reference is given up first, and the
    object is gone before it could be taken again. *)
Lemma Py_XINCREF_XDECREF_last p s :
  p ≠ nullptr → ob_refcnt s !! p = Some 1 →
  ob_refcnt (Py_XINCREF p (Py_XDECREF p s)) !! p = None.
Proof.
  intros Hp Hc. unfold Py_XDECREF, Py_XINCREF.
  rewrite (is_null_false _ Hp), Hc. simpl.
  by rewrite lookup_alter_eq, lookup_delete_eq.
Qed.
End RefcountFacts.

(** C8.  Copy-assignment takes the reference of the right-hand side before
    it gives up the one of the left-hand side.  When both hold the same
    pointer (self-assignment), the assigned object keeps its pointer, the
    state after the call is the state before it (no net change of any
    count), and a held object has count [c + 1] between the two steps, so
    its count never reaches zero.  An empty reference is left empty. *)
Theorem object_assign_self_assignment {W} (this_ other : object)
    (s : PyState W) (c : Z) :
  m_ptr other = m_ptr this_ →
  m_ptr this_ = nullptr ∨ (ob_refcnt s !! m_ptr this_ = Some c ∧ 0 < c) →
  ∃ s1,
    object_assign_steps this_ other s = (mkHandle (m_ptr this_), (s1, s))
    ∧ object_assign this_ other s = (mkHandle (m_ptr this_), s)
    ∧ s1 = handle_inc_ref other s
    ∧ s = handle_dec_ref this_ s1
    ∧ (m_ptr this_ ≠ nullptr →
       ob_refcnt s1 !! m_ptr this_ = Some (c + 1)
       ∧ ob_refcnt s !! m_ptr this_ = Some c).
Proof.
  intros Hsame Hheld. exists (handle_inc_ref other s).
  unfold object_assign, object_assign_steps, handle_inc_ref, handle_dec_ref.
  rewrite Hsame.
  destruct Hheld as [Hnull | [Hc Hpos]].
  - rewrite Hnull, Py_XINCREF_null, Py_XDECREF_null.
    repeat split; try done.
  - rewrite (Py_XDECREF_XINCREF _ c s Hc Hpos).
    repeat split; try done.
    by apply Py_XINCREF_count.
Qed.

Lemma object_assign_self_assignment_witness :
  ∃ s1,
    object_assign_steps (mkHandle 7) (mkHandle 7) quiet_state
      = (mkHandle 7, (s1, quiet_state))
    ∧ object_assign (mkHandle 7) (mkHandle 7) quiet_state
      = (mkHandle 7, quiet_state)
    ∧ s1 = handle_inc_ref (mkHandle 7) quiet_state
    ∧ quiet_state = handle_dec_ref (mkHandle 7) s1
    ∧ (7%N ≠ nullptr →
       ob_refcnt s1 !! 7%N = Some (1 + 1)
       ∧ ob_refcnt quiet_state !! 7%N = Some 1).
Proof.
  apply (object_assign_self_assignment (mkHandle 7) (mkHandle 7) quiet_state 1).
  - reflexivity.
  - right. split; [reflexivity | lia].
Defined.

(** ** Running the monad *)

Section MonadFacts.
Context {W : Type}.

Lemma bind_exec {A} (f : PyState W → PyState W) (k : M W A) (s : PyState W) :
  bind (exec f) (fun _ => k) s = k (f s).
Proof. reflexivity. Qed.

Lemma bind_call {A B} (f : PyState W → A * PyState W) (k : A → M W B)
    (s s1 : PyState W) (a : A) :
  f s = (a, s1) → bind (call f) k s = k a s1.
Proof. intros Hf. unfold bind, call. by rewrite Hf. Qed.

Lemma bind_ret {A B} (a : A) (k : A → M W B) (s : PyState W) :
  bind (ret a) k s = k a s.
Proof. reflexivity. Qed.

Lemma bind_throw {A B} (e : cpp_exception W) (k : A → M W B) (s : PyState W) :
  bind (throw e) k s = (Throw e, s).
Proof. reflexivity. Qed.

Lemma returns_not_raises {A} (m : M W A) (s : PyState W) :
  returns m s → ¬ raises m s.
Proof. intros (a & s1 & Hm) (e & s2 & He). congruence. Qed.
End MonadFacts.

(** ** Accessor policies *)

(** The statement of C1 fails in the runtime whose non-stealing call takes
    a reference of its own: the generic-sequence [set] does not leave the
    count of the value as it was, it ends one higher, just as the list
    [set] does. *)
Lemma sequence_set_changes_the_count :
  ob_refcnt quiet_state !! 7%N = Some 1
  ∧ (∃ s', sequence_item_set taking_api (mkHandle 9) 0 (mkHandle 7) quiet_state
           = (Ok tt, s')
           ∧ ob_refcnt s' !! 7%N = Some 2)
  ∧ (∃ s', list_item_set taking_api (mkHandle 9) 0 (mkHandle 7) quiet_state
           = (Ok tt, s')
           ∧ ob_refcnt s' !! 7%N = Some 2).
Proof.
  split; [reflexivity|].
  split; eexists; (split; [reflexivity|]); reflexivity.
Qed.

(** C1, amended.  For a value that is a live object with count [c]: the
    list and the tuple [set] make the underlying (stealing) call in the
    state where that count is [c + 1] and nothing else has changed, one
    increment made before the call; the generic-sequence [set] makes its
    call in the state it was entered in, with no increment of its own.
    Each returns normally when the call answers 0 and throws an
    [error_already_set] otherwise, in the state the call left, so the count
    after a [set] is the one its underlying call leaves.  In a runtime
    where the two calls do the same, the list [set] is the
    generic-sequence [set] run one increment later. *)
Theorem item_set_reference_counts {W} (api : HostAPI W) (obj : handle)
    (index : Z) (val : handle) (s : PyState W) (c : Z) :
  m_ptr val ≠ nullptr →
  ob_refcnt s !! m_ptr val = Some c →
  let s1 := with_refcnt (<[m_ptr val := c + 1]>) s in
  let i := ssize_t_of_size_t index in
  (∀ r s2,
     PyList_SetItem api (m_ptr obj) i (m_ptr val) s1 = (r, s2) →
     list_item_set api obj index val s
     = if r =? 0 then (Ok tt, s2) else throw_error_already_set api s2)
  ∧ (∀ r s2,
       PyTuple_SetItem api (m_ptr obj) i (m_ptr val) s1 = (r, s2) →
       tuple_item_set api obj index val s
       = if r =? 0 then (Ok tt, s2) else throw_error_already_set api s2)
  ∧ (∀ r s2,
       PySequence_SetItem api (m_ptr obj) i (m_ptr val) s = (r, s2) →
       sequence_item_set api obj index val s
       = if r =? 0 then (Ok tt, s2) else throw_error_already_set api s2)
  ∧ ((∀ σ, PyList_SetItem api (m_ptr obj) i (m_ptr val) σ
           = PySequence_SetItem api (m_ptr obj) i (m_ptr val) σ) →
     list_item_set api obj index val s = sequence_item_set api obj index val s1)
  ∧ ((∀ σ, PyTuple_SetItem api (m_ptr obj) i (m_ptr val) σ
           = PySequence_SetItem api (m_ptr obj) i (m_ptr val) σ) →
     tuple_item_set api obj index val s = sequence_item_set api obj index val s1).
Proof.
  intros Hp Hc s1 i.
  assert (Py_XINCREF (m_ptr val) s = s1) as Hinc
    by (by apply Py_XINCREF_as_insert).
  split; [|split; [|split; [|split]]].
  - intros r s2 Hcall. unfold list_item_set. rewrite bind_exec.
    unfold handle_inc_ref. rewrite Hinc, (bind_call _ _ _ _ _ Hcall).
    by destruct (r =? 0).
  - intros r s2 Hcall. unfold tuple_item_set. rewrite bind_exec.
    unfold handle_inc_ref. rewrite Hinc, (bind_call _ _ _ _ _ Hcall).
    by destruct (r =? 0).
  - intros r s2 Hcall. unfold sequence_item_set.
    rewrite (bind_call _ _ _ _ _ Hcall). by destruct (r =? 0).
  - intros Hsame. unfold list_item_set, sequence_item_set. rewrite bind_exec.
    unfold handle_inc_ref. rewrite Hinc. unfold bind, call, handle_ptr.
    fold i. by rewrite Hsame.
  - intros Hsame. unfold tuple_item_set, sequence_item_set. rewrite bind_exec.
    unfold handle_inc_ref. rewrite Hinc. unfold bind, call, handle_ptr.
    fold i. by rewrite Hsame.
Qed.

Lemma item_set_reference_counts_witness :
  list_item_set taking_api (mkHandle 9) 0 (mkHandle 7) quiet_state
    = (Ok tt, with_refcnt (<[7%N := 1 + 1]>) quiet_state)
  ∧ tuple_item_set taking_api (mkHandle 9) 0 (mkHandle 7) quiet_state
    = (Ok tt, with_refcnt (<[7%N := 1 + 1]>) quiet_state)
  ∧ sequence_item_set taking_api (mkHandle 9) 0 (mkHandle 7) quiet_state
    = (Ok tt, Py_XINCREF 7 quiet_state)
  ∧ sequence_item_set failing_api (mkHandle 9) 0 (mkHandle 7) quiet_state
    = throw_error_already_set failing_api quiet_state.
Proof.
  destruct (item_set_reference_counts taking_api (mkHandle 9) 0 (mkHandle 7)
              quiet_state 1 ltac:(discriminate) eq_refl)
    as (Hlist & Htuple & Hseq & _).
  destruct (item_set_reference_counts failing_api (mkHandle 9) 0 (mkHandle 7)
              quiet_state 1 ltac:(discriminate) eq_refl)
    as (_ & _ & Hfail & _).
  split; [exact (Hlist 0 _ eq_refl)|].
  split; [exact (Htuple 0 _ eq_refl)|].
  split; [exact (Hseq 0 _ eq_refl)|].
  exact (Hfail (-1) _ eq_refl).
Defined.

(** ** The error bridge *)

Section ErrorBridgeFacts.
Context {W : Type}.
Implicit Types (s : PyState W).

Lemma PyErr_Restore_curexc t v tb s :
  curexc (PyErr_Restore t v tb s) = mkPyErr t v tb.
Proof. unfold PyErr_Restore. by rewrite !Py_XDECREF_curexc. Qed.

Lemma PyErr_Restore_quiet t v tb s :
  curexc s = no_error →
  PyErr_Restore t v tb s = with_curexc (mkPyErr t v tb) s.
Proof. intros Hq. unfold PyErr_Restore. rewrite Hq. reflexivity. Qed.

Lemma PyErr_Clear_quiet s : curexc s = no_error → PyErr_Clear s = s.
Proof.
  intros Hq. unfold PyErr_Clear. rewrite (PyErr_Restore_quiet _ _ _ _ Hq).
  destruct s as [m e w]. simpl in Hq. subst e. reflexivity.
Qed.

Lemma PyErr_Clear_curexc s : curexc (PyErr_Clear s) = no_error.
Proof. apply PyErr_Restore_curexc. Qed.

End ErrorBridgeFacts.

(** The statement of C5 fails where [detail::error_string], which the
    constructor runs before it fetches the indicator, normalizes the pending
    error: the value object captured and restored is the new one, not the
    one that was pending before the capture. *)
Lemma capture_restore_after_normalization :
  let '(e, s1) := error_already_set_ctor normalizing_api error_state in
  let '(e', s2) := error_already_set_restore e s1 in
  curexc error_state = mkPyErr 11 12 13
  ∧ curexc s2 = mkPyErr 11 14 13
  ∧ curexc s2 ≠ curexc error_state.
Proof.
  vm_compute. repeat split. discriminate.
Qed.

(** C5, amended.  Capturing the pending error and restoring it at once puts
    back into the indicator the triple that [detail::error_string], run
    first by the constructor, has left there, and touches no reference count
    after that; between the two calls the indicator is empty.  So the
    indicator holds the same type, value and traceback objects as before the
    capture whenever [detail::error_string] leaves the indicator as it
    finds it. *)
Theorem capture_restore_round_trip {W} (api : HostAPI W) (s : PyState W) :
  ∃ e s1 e' s2,
    error_already_set_ctor api s = (e, s1)
    ∧ error_already_set_restore e s1 = (e', s2)
    ∧ curexc s1 = no_error
    ∧ mkPyErr (m_ptr (m_type e)) (m_ptr (m_value e)) (m_ptr (m_trace e))
      = curexc (snd (error_string api s))
    ∧ curexc s2 = curexc (snd (error_string api s))
    ∧ ob_refcnt s2 = ob_refcnt (snd (error_string api s))
    ∧ world s2 = world (snd (error_string api s))
    ∧ (curexc (snd (error_string api s)) = curexc s → curexc s2 = curexc s).
Proof.
  unfold error_already_set_ctor, error_already_set_restore.
  destruct (error_string api s) as [msg s0]. simpl.
  do 4 eexists. split; [reflexivity|]. split; [reflexivity|].
  rewrite PyErr_Restore_curexc. simpl.
  destruct (curexc s0) as [t v tb] eqn:Hs0. simpl.
  repeat split. by intros <-.
Qed.

Lemma capture_restore_round_trip_witness :
  ∃ e s1 e' s2,
    error_already_set_ctor failing_api error_state = (e, s1)
    ∧ error_already_set_restore e s1 = (e', s2)
    ∧ curexc s2 = curexc error_state.
Proof.
  destruct (capture_restore_round_trip failing_api error_state)
    as (e & s1 & e' & s2 & Hctor & Hrestore & _ & _ & _ & _ & _ & Hsame).
  exists e, s1, e', s2. split; [exact Hctor|]. split; [exact Hrestore|].
  apply Hsame. reflexivity.
Defined.

(** The statement of C4 fails on the captured error above: the first
    [restore] puts the error into the indicator, and the second one, called
    right after it, empties the indicator again. *)
Lemma second_restore_clears_indicator :
  let '(e1, s1) := error_already_set_restore captured_error captured_state in
  let '(e2, s2) := error_already_set_restore e1 s1 in
  curexc s1 = mkPyErr 11 12 13 ∧ curexc s2 = no_error ∧ s2 ≠ s1.
Proof.
  simpl. rewrite !PyErr_Restore_curexc. repeat split.
  intros Heq. apply (f_equal curexc) in Heq.
  rewrite !PyErr_Restore_curexc in Heq. discriminate.
Qed.

(** C4, amended.  After [restore] the three slots are empty and the indicator
    holds what they held.  A further [restore], in whatever state, hands no
    object over and raises nothing, and leaves the value empty; what it does
    is [PyErr_Clear]: it leaves the state alone when no error is pending,
    and drops the pending error otherwise. *)
Theorem restore_then_restore {W} (e : error_already_set) (s : PyState W) :
  ∃ e1 s1,
    error_already_set_restore e s = (e1, s1)
    ∧ m_type e1 = mkHandle nullptr
    ∧ m_value e1 = mkHandle nullptr
    ∧ m_trace e1 = mkHandle nullptr
    ∧ curexc s1 = mkPyErr (m_ptr (m_type e)) (m_ptr (m_value e)) (m_ptr (m_trace e))
    ∧ ∀ s' : PyState W, error_already_set_restore e1 s' = (e1, PyErr_Clear s')
            ∧ curexc (PyErr_Clear s') = no_error
            ∧ (curexc s' = no_error → PyErr_Clear s' = s').
Proof.
  unfold error_already_set_restore. simpl. do 2 eexists.
  split; [reflexivity|]. simpl. rewrite PyErr_Restore_curexc.
  repeat split.
  - apply PyErr_Clear_curexc.
  - apply PyErr_Clear_quiet.
Qed.

(** ** Translation of native faults *)

(** Every class of the model derives from [std::exception]. *)
Lemma catches_std_exception (c : std_class) : catches std_exception c = true.
Proof.
  unfold catches. induction c; try reflexivity.
  simpl. by rewrite IHc.
Qed.

(** A class defined outside the standard library is caught as its base
    is, by a handler for a standard class. *)
Lemma catches_derived_from (target b : std_class) :
  (∀ b', target ≠ derived_from b') →
  catches target (derived_from b) = catches target b.
Proof.
  intros Hstd. unfold catches. simpl.
  rewrite bool_decide_eq_false_2; [reflexivity|].
  intros Heq. by apply (Hstd b).
Qed.

(** The statement of C3 fails on a [builtin_exception]: the code lets the
    fault set the error it chooses, here an index error, where the listed
    translation gives a runtime error. *)
Lemma builtin_exception_sets_its_own_error :
  curexc_type (curexc (translate_exception failing_api (Some index_error_fault)
                         quiet_state))
    = PyExc_IndexError failing_api
  ∧ curexc_type (curexc (listed_translation failing_api index_error_fault
                           quiet_state))
    = PyExc_RuntimeError failing_api
  ∧ translate_exception failing_api (Some index_error_fault) quiet_state
    ≠ listed_translation failing_api index_error_fault quiet_state.
Proof.
  split; [reflexivity|]. split; [reflexivity|].
  intros Heq. apply (f_equal (fun s => curexc_type (curexc s))) in Heq.
  discriminate.
Qed.

(** C3, amended.  The handlers are tried in this order, the first that takes
    the fault deciding: a captured host error is restored as it is; a
    [builtin_exception] sets the error of its own [set_error]; a
    [bad_alloc] becomes a memory error; domain, invalid-argument and length
    faults become value errors; out-of-range becomes an index error; a range
    fault becomes a value error; any other fault derived from
    [std::exception] becomes a runtime error with its message; anything else
    becomes a runtime error with the message "Caught an unknown
    exception!".  An empty exception pointer changes nothing. *)
Theorem translate_exception_table {W} (api : HostAPI W) (s : PyState W) :
  translate_exception api None s = s
  ∧ (∀ e, translate_exception api (Some (exc_error_already_set e)) s
          = PyErr_Restore (m_ptr (m_type e)) (m_ptr (m_value e))
              (m_ptr (m_trace e)) s)
  ∧ (∀ msg set_error,
       translate_exception api (Some (exc_builtin_exception msg set_error)) s
       = set_error s)
  ∧ (∀ c msg,
       catches std_bad_alloc c = true →
       translate_exception api (Some (exc_std c msg)) s
       = PyErr_SetString api (PyExc_MemoryError api) msg s)
  ∧ (∀ c msg,
       catches std_bad_alloc c = false →
       catches std_domain_error c = true
       ∨ catches std_invalid_argument c = true
       ∨ catches std_length_error c = true →
       translate_exception api (Some (exc_std c msg)) s
       = PyErr_SetString api (PyExc_ValueError api) msg s)
  ∧ (∀ c msg,
       catches std_bad_alloc c = false →
       catches std_domain_error c = false →
       catches std_invalid_argument c = false →
       catches std_length_error c = false →
       catches std_out_of_range c = true →
       translate_exception api (Some (exc_std c msg)) s
       = PyErr_SetString api (PyExc_IndexError api) msg s)
  ∧ (∀ c msg,
       catches std_bad_alloc c = false →
       catches std_domain_error c = false →
       catches std_invalid_argument c = false →
       catches std_length_error c = false →
       catches std_out_of_range c = false →
       catches std_range_error c = true →
       translate_exception api (Some (exc_std c msg)) s
       = PyErr_SetString api (PyExc_ValueError api) msg s)
  ∧ (∀ c msg,
       catches std_bad_alloc c = false →
       catches std_domain_error c = false →
       catches std_invalid_argument c = false →
       catches std_length_error c = false →
       catches std_out_of_range c = false →
       catches std_range_error c = false →
       translate_exception api (Some (exc_std c msg)) s
       = PyErr_SetString api (PyExc_RuntimeError api) msg s)
  ∧ translate_exception api (Some exc_foreign) s
    = PyErr_SetString api (PyExc_RuntimeError api)
        "Caught an unknown exception!" s.
Proof.
  repeat split; try reflexivity.
  - intros c msg H1. simpl. by rewrite H1.
  - intros c msg H1 H234. simpl. rewrite H1.
    destruct (catches std_domain_error c); [reflexivity|].
    destruct (catches std_invalid_argument c); [reflexivity|].
    destruct (catches std_length_error c); [reflexivity|].
    destruct H234 as [?|[?|?]]; discriminate.
  - intros c msg H1 H2 H3 H4 H5. simpl. by rewrite H1, H2, H3, H4, H5.
  - intros c msg H1 H2 H3 H4 H5 H6. simpl. by rewrite H1, H2, H3, H4, H5, H6.
  - intros c msg H1 H2 H3 H4 H5 H6. simpl.
    by rewrite H1, H2, H3, H4, H5, H6, catches_std_exception.
Qed.

Lemma translate_exception_table_witness :
  translate_exception failing_api (Some (exc_std std_bad_alloc "m")) quiet_state
    = PyErr_SetString failing_api (PyExc_MemoryError failing_api) "m" quiet_state
  ∧ translate_exception failing_api (Some (exc_std std_invalid_argument "m"))
      quiet_state
    = PyErr_SetString failing_api (PyExc_ValueError failing_api) "m" quiet_state
  ∧ translate_exception failing_api
      (Some (exc_std (derived_from std_out_of_range) "m")) quiet_state
    = PyErr_SetString failing_api (PyExc_IndexError failing_api) "m" quiet_state
  ∧ translate_exception failing_api (Some (exc_std std_range_error "m"))
      quiet_state
    = PyErr_SetString failing_api (PyExc_ValueError failing_api) "m" quiet_state
  ∧ translate_exception failing_api (Some (exc_std std_overflow_error "m"))
      quiet_state
    = PyErr_SetString failing_api (PyExc_RuntimeError failing_api) "m"
        quiet_state.
Proof.
  destruct (translate_exception_table failing_api quiet_state)
    as (_ & _ & _ & Hmem & Hval & Hidx & Hrange & Hrun & _).
  split; [apply Hmem; reflexivity|].
  split; [apply Hval; [reflexivity | right; left; reflexivity]|].
  split; [apply Hidx; reflexivity|].
  split; [apply Hrange; reflexivity|].
  apply Hrun; reflexivity.
Defined.

(** ** The generic iterator *)

Section ThrowFacts.
Context {W : Type} (api : HostAPI W).

Lemma throw_error_already_set_eq {A} (s : PyState W) :
  @throw_error_already_set W api A s
  = (Throw (exc_error_already_set (fst (error_already_set_ctor api s))),
     snd (error_already_set_ctor api s)).
Proof.
  unfold throw_error_already_set.
  by destruct (error_already_set_ctor api s).
Qed.

(** What a capture holds and leaves when [detail::error_string] keeps
    the indicator. *)
Lemma error_already_set_ctor_holds (s : PyState W) :
  curexc (snd (error_string api s)) = curexc s →
  mkPyErr (m_ptr (m_type (fst (error_already_set_ctor api s))))
          (m_ptr (m_value (fst (error_already_set_ctor api s))))
          (m_ptr (m_trace (fst (error_already_set_ctor api s))))
  = curexc s
  ∧ curexc (snd (error_already_set_ctor api s)) = no_error.
Proof.
  intros Hkeep. unfold error_already_set_ctor.
  destruct (error_string api s) as [msg s0]. simpl in *.
  rewrite <- Hkeep. by destruct (curexc s0).
Qed.
End ThrowFacts.

(** The statement of C6 fails on an iterator that signals exhaustion at one
    poll and produces an element at the next: [advance] leaves the cached
    value empty, but the comparison with [sentinel()], which dereferences
    the iterator and so polls it again, finds the new element and answers
    false. *)
Lemma exhausted_iterator_differs_from_sentinel :
  let it := mkIterator (mkHandle 9) (mkHandle nullptr) in
  let '(r, it1, s1) := iterator_advance scripted_api it resuming_state in
  let '(eq, _, _) := iterator_eq scripted_api it1 iterator_sentinel s1 in
  PyIter_Next scripted_api 9 resuming_state
    = (nullptr, mkPyState (ob_refcnt resuming_state) no_error [7%N])
  ∧ r = Ok tt
  ∧ value it1 = mkHandle nullptr
  ∧ eq = Ok false.
Proof. vm_compute. repeat split. Qed.

(** C6, amended.  A poll that leaves no error pending makes [advance] return
    normally with the result of the poll as the cached value: the empty
    value, as that of [sentinel()], when the underlying iterator signals
    exhaustion.  That holds for every call, so advancing again after
    exhaustion does not raise as long as the new poll leaves no error
    pending.  Comparing an iterator whose cache is empty with [sentinel()]
    polls the underlying iterator once more, and answers true exactly when
    that poll returns no element.  A poll that leaves an error pending
    makes [advance] throw the [error_already_set] built at that point, which
    holds the pending error, the indicator being emptied, when
    [detail::error_string] keeps the indicator. *)
Theorem iterator_advance_exhaustion {W} (api : HostAPI W) (it : iterator)
    (s : PyState W) :
  (∀ q s1,
     PyIter_Next api (m_ptr (it_object it)) s = (q, s1) →
     PyErr_Occurred s1 = nullptr →
     iterator_advance api it s
     = (Ok tt, mkIterator (it_object it) (mkHandle q),
        Py_XDECREF (m_ptr (value it)) s1))
  ∧ value iterator_sentinel = mkHandle nullptr
  ∧ (∀ q s1,
       m_ptr (it_object it) ≠ nullptr →
       value it = mkHandle nullptr →
       PyIter_Next api (m_ptr (it_object it)) s = (q, s1) →
       PyErr_Occurred s1 = nullptr →
       iterator_eq api it iterator_sentinel s
       = (Ok (is_null q),
          (mkIterator (it_object it) (mkHandle q), iterator_sentinel), s1))
  ∧ (∀ q s1,
       PyIter_Next api (m_ptr (it_object it)) s = (q, s1) →
       PyErr_Occurred s1 ≠ nullptr →
       let s' := Py_XDECREF (m_ptr (value it)) s1 in
       iterator_advance api it s
       = (Throw (exc_error_already_set (fst (error_already_set_ctor api s'))),
          mkIterator (it_object it) (mkHandle q),
          snd (error_already_set_ctor api s'))
       ∧ (curexc (snd (error_string api s')) = curexc s' →
          mkPyErr (m_ptr (m_type (fst (error_already_set_ctor api s'))))
                  (m_ptr (m_value (fst (error_already_set_ctor api s'))))
                  (m_ptr (m_trace (fst (error_already_set_ctor api s'))))
          = curexc s1
          ∧ curexc (snd (error_already_set_ctor api s')) = no_error)).
Proof.
  assert (∀ q s1,
            PyIter_Next api (m_ptr (it_object it)) s = (q, s1) →
            PyErr_Occurred s1 = nullptr →
            iterator_advance api it s
            = (Ok tt, mkIterator (it_object it) (mkHandle q),
               Py_XDECREF (m_ptr (value it)) s1)) as Hadv.
  { intros q s1 Hnext Hquiet. unfold iterator_advance. rewrite Hnext. simpl.
    unfold object_dtor, handle_dec_ref. simpl. rewrite Py_XDECREF_null.
    unfold PyErr_Occurred in *. rewrite Py_XDECREF_curexc, Hquiet.
    reflexivity. }
  split; [exact Hadv|]. split; [reflexivity|]. split.
  - intros q s1 Hit Hval Hnext Hquiet.
    unfold iterator_eq, iterator_deref.
    rewrite (is_null_false _ Hit), Hval. simpl.
    rewrite (Hadv q s1 Hnext Hquiet), Hval. simpl.
    rewrite Py_XDECREF_null. reflexivity.
  - intros q s1 Hnext Hpending s'.
    assert (curexc s' = curexc s1) as Hs' by apply Py_XDECREF_curexc.
    split.
    + unfold iterator_advance. rewrite Hnext. simpl.
      unfold object_dtor, handle_dec_ref. simpl. rewrite Py_XDECREF_null.
      fold s'. unfold PyErr_Occurred in *.
      rewrite Hs', (is_null_false _ Hpending). simpl.
      by rewrite throw_error_already_set_eq.
    + intros Hkeep.
      destruct (error_already_set_ctor_holds api s' Hkeep) as [Hheld Hempty].
      split; [by rewrite Hheld | exact Hempty].
Qed.

Lemma iterator_advance_exhaustion_witness :
  iterator_advance failing_api (mkIterator (mkHandle 7) (mkHandle nullptr))
    quiet_state
  = (Ok tt, mkIterator (mkHandle 7) (mkHandle nullptr), quiet_state)
  ∧ iterator_eq failing_api (mkIterator (mkHandle 7) (mkHandle nullptr))
      iterator_sentinel quiet_state
    = (Ok true, (mkIterator (mkHandle 7) (mkHandle nullptr), iterator_sentinel),
       quiet_state)
  ∧ iterator_eq answering_api (mkIterator (mkHandle 9) (mkHandle nullptr))
      iterator_sentinel quiet_state
    = (Ok false, (mkIterator (mkHandle 9) (mkHandle 7), iterator_sentinel),
       quiet_state)
  ∧ iterator_advance failing_api (mkIterator (mkHandle 7) (mkHandle nullptr))
      error_state
    = (Throw (exc_error_already_set
                (fst (error_already_set_ctor failing_api error_state))),
       mkIterator (mkHandle 7) (mkHandle nullptr),
       snd (error_already_set_ctor failing_api error_state)).
Proof.
  destruct (iterator_advance_exhaustion failing_api
              (mkIterator (mkHandle 7) (mkHandle nullptr)) quiet_state)
    as (Hadv & _ & Heq & _).
  destruct (iterator_advance_exhaustion answering_api
              (mkIterator (mkHandle 9) (mkHandle nullptr)) quiet_state)
    as (_ & _ & Hne & _).
  destruct (iterator_advance_exhaustion failing_api
              (mkIterator (mkHandle 7) (mkHandle nullptr)) error_state)
    as (_ & _ & _ & Hfault).
  split; [exact (Hadv nullptr quiet_state eq_refl eq_refl)|].
  split.
  { apply (Heq nullptr quiet_state); [discriminate | reflexivity ..]. }
  split.
  { apply (Hne 7%N quiet_state); [discriminate | reflexivity ..]. }
  destruct (Hfault nullptr error_state eq_refl ltac:(discriminate)) as [Hthrow _].
  exact Hthrow.
Defined.

(** ** Attribute access and lengths *)

(** C7.  When the attribute lookup fails (returns null), whatever error it
    left pending, [getattr] with a default clears the indicator, takes a
    reference to the default and returns it; it does not raise.  Both
    overloads. *)
Theorem getattr_default_on_failure {W} (api : HostAPI W)
    (obj name default_ : handle) (cname : string) (s : PyState W) :
  (∀ s1,
     PyObject_GetAttr api (m_ptr obj) (m_ptr name) s = (nullptr, s1) →
     getattr_default api obj name default_ s
     = (Ok default_, Py_XINCREF (m_ptr default_) (PyErr_Clear s1))
     ∧ curexc (Py_XINCREF (m_ptr default_) (PyErr_Clear s1)) = no_error)
  ∧ (∀ s1,
       PyObject_GetAttrString api (m_ptr obj) cname s = (nullptr, s1) →
       getattr_str_default api obj cname default_ s
       = (Ok default_, Py_XINCREF (m_ptr default_) (PyErr_Clear s1))
       ∧ curexc (Py_XINCREF (m_ptr default_) (PyErr_Clear s1)) = no_error).
Proof.
  split; intros s1 Hget.
  - unfold getattr_default. rewrite (bind_call _ _ _ _ _ Hget).
    split; [reflexivity|]. by rewrite Py_XINCREF_curexc, PyErr_Clear_curexc.
  - unfold getattr_str_default. rewrite (bind_call _ _ _ _ _ Hget).
    split; [reflexivity|]. by rewrite Py_XINCREF_curexc, PyErr_Clear_curexc.
Qed.

Lemma getattr_default_on_failure_witness :
  (getattr_default failing_api (mkHandle 11) (mkHandle 12) (mkHandle 7) error_state
   = (Ok (mkHandle 7), Py_XINCREF 7 (PyErr_Clear error_state))
   ∧ curexc (Py_XINCREF 7 (PyErr_Clear error_state)) = no_error)
  ∧ (getattr_str_default failing_api (mkHandle 11) "name" (mkHandle 7) error_state
     = (Ok (mkHandle 7), Py_XINCREF 7 (PyErr_Clear error_state))
     ∧ curexc (Py_XINCREF 7 (PyErr_Clear error_state)) = no_error).
Proof.
  destruct (getattr_default_on_failure failing_api (mkHandle 11) (mkHandle 12)
              (mkHandle 7) "name" error_state) as [Hobj Hstr].
  split; [apply Hobj | apply Hstr]; reflexivity.
Defined.

(** C9.  When the length query of [len_hint] reports a failure (a negative
    result), [len_hint] clears the indicator and returns 0 without raising,
    while [len] raises a fatal error when its query fails.  A query that
    answers 0 makes [len_hint] return 0 as well, so the value returned does
    not tell an unsized object from an empty one. *)
Theorem len_hint_swallows_failure {W} (api : HostAPI W) (h : handle)
    (s : PyState W) :
  (∀ r s1,
     len_hint_query api (m_ptr h) s = (r, s1) → r < 0 →
     len_hint api h s = (Ok 0, PyErr_Clear s1)
     ∧ curexc (PyErr_Clear s1) = no_error)
  ∧ (∀ r s1,
       PyObject_Length api (m_ptr h) s = (r, s1) → r < 0 →
       len api h s
       = (Throw (exc_std std_runtime_error "Unable to compute length of object"),
          s1))
  ∧ (∀ s1,
       len_hint_query api (m_ptr h) s = (0, s1) →
       len_hint api h s = (Ok 0, s1)).
Proof.
  split; [|split].
  - intros r s1 Hq Hneg. unfold len_hint. rewrite (bind_call _ _ _ _ _ Hq).
    assert ((r <? 0) = true) as -> by (by apply Z.ltb_lt).
    split; [reflexivity | apply PyErr_Clear_curexc].
  - intros r s1 Hq Hneg. unfold len. rewrite (bind_call _ _ _ _ _ Hq).
    assert ((r <? 0) = true) as -> by (by apply Z.ltb_lt).
    reflexivity.
  - intros s1 Hq. unfold len_hint. rewrite (bind_call _ _ _ _ _ Hq).
    reflexivity.
Qed.

Lemma len_hint_swallows_failure_witness :
  (len_hint failing_api (mkHandle 7) error_state = (Ok 0, PyErr_Clear error_state)
   ∧ curexc (PyErr_Clear error_state) = no_error)
  ∧ len failing_api (mkHandle 7) error_state
    = (Throw (exc_std std_runtime_error "Unable to compute length of object"),
       error_state).
Proof.
  destruct (len_hint_swallows_failure failing_api (mkHandle 7) error_state)
    as (Hhint & Hlen & _).
  split.
  - apply (Hhint (-1) error_state); [reflexivity | lia].
  - apply (Hlen (-1) error_state); [reflexivity | lia].
Defined.

(** C10.  [hasattr] always returns normally, and its answer is whether the
    underlying check returned 1: any other outcome gives false.  [delattr],
    [getattr] and [setattr] throw an [error_already_set], built in the state
    the failed call left, when their call reports a failure.  Both
    overloads of each. *)
Theorem hasattr_never_raises {W} (api : HostAPI W) (obj name val : handle)
    (cname : string) (s : PyState W) :
  hasattr api obj name s
    = (Ok (fst (PyObject_HasAttr api (m_ptr obj) (m_ptr name) s) =? 1),
       snd (PyObject_HasAttr api (m_ptr obj) (m_ptr name) s))
  ∧ hasattr_str api obj cname s
    = (Ok (fst (PyObject_HasAttrString api (m_ptr obj) cname s) =? 1),
       snd (PyObject_HasAttrString api (m_ptr obj) cname s))
  ∧ (∀ r s1,
       PyObject_DelAttr api (m_ptr obj) (m_ptr name) s = (r, s1) → r ≠ 0 →
       delattr api obj name s
       = (Throw (exc_error_already_set (fst (error_already_set_ctor api s1))),
          snd (error_already_set_ctor api s1)))
  ∧ (∀ r s1,
       PyObject_DelAttrString api (m_ptr obj) cname s = (r, s1) → r ≠ 0 →
       delattr_str api obj cname s
       = (Throw (exc_error_already_set (fst (error_already_set_ctor api s1))),
          snd (error_already_set_ctor api s1)))
  ∧ (∀ s1,
       PyObject_GetAttr api (m_ptr obj) (m_ptr name) s = (nullptr, s1) →
       getattr api obj name s
       = (Throw (exc_error_already_set (fst (error_already_set_ctor api s1))),
          snd (error_already_set_ctor api s1)))
  ∧ (∀ s1,
       PyObject_GetAttrString api (m_ptr obj) cname s = (nullptr, s1) →
       getattr_str api obj cname s
       = (Throw (exc_error_already_set (fst (error_already_set_ctor api s1))),
          snd (error_already_set_ctor api s1)))
  ∧ (∀ r s1,
       PyObject_SetAttr api (m_ptr obj) (m_ptr name) (m_ptr val) s = (r, s1) →
       r ≠ 0 →
       setattr api obj name val s
       = (Throw (exc_error_already_set (fst (error_already_set_ctor api s1))),
          snd (error_already_set_ctor api s1)))
  ∧ (∀ r s1,
       PyObject_SetAttrString api (m_ptr obj) cname (m_ptr val) s = (r, s1) →
       r ≠ 0 →
       setattr_str api obj cname val s
       = (Throw (exc_error_already_set (fst (error_already_set_ctor api s1))),
          snd (error_already_set_ctor api s1))).
Proof.
  assert (∀ r : Z, r ≠ 0 → negb (r =? 0) = true) as Hnz.
  { intros r Hr. apply negb_true_iff. by apply Z.eqb_neq. }
  split; [|split].
  - unfold hasattr, bind, call, handle_ptr.
    by destruct (PyObject_HasAttr api (m_ptr obj) (m_ptr name) s).
  - unfold hasattr_str, bind, call, handle_ptr.
    by destruct (PyObject_HasAttrString api (m_ptr obj) cname s).
  - repeat split.
    + intros r s1 Hcall Hr. unfold delattr.
      rewrite (bind_call _ _ _ _ _ Hcall), (Hnz r Hr). cbv beta iota.
      by rewrite throw_error_already_set_eq.
    + intros r s1 Hcall Hr. unfold delattr_str.
      rewrite (bind_call _ _ _ _ _ Hcall), (Hnz r Hr). cbv beta iota.
      by rewrite throw_error_already_set_eq.
    + intros s1 Hcall. unfold getattr.
      rewrite (bind_call _ _ _ _ _ Hcall).
      change (is_null nullptr) with true. cbv beta iota.
      by rewrite throw_error_already_set_eq.
    + intros s1 Hcall. unfold getattr_str.
      rewrite (bind_call _ _ _ _ _ Hcall).
      change (is_null nullptr) with true. cbv beta iota.
      by rewrite throw_error_already_set_eq.
    + intros r s1 Hcall Hr. unfold setattr.
      rewrite (bind_call _ _ _ _ _ Hcall), (Hnz r Hr). cbv beta iota.
      by rewrite throw_error_already_set_eq.
    + intros r s1 Hcall Hr. unfold setattr_str.
      rewrite (bind_call _ _ _ _ _ Hcall), (Hnz r Hr). cbv beta iota.
      by rewrite throw_error_already_set_eq.
Qed.

Lemma hasattr_never_raises_witness :
  hasattr failing_api (mkHandle 7) (mkHandle 12) error_state
    = (Ok false, error_state)
  ∧ delattr failing_api (mkHandle 7) (mkHandle 12) error_state
    = (Throw (exc_error_already_set
                (fst (error_already_set_ctor failing_api error_state))),
       snd (error_already_set_ctor failing_api error_state))
  ∧ getattr failing_api (mkHandle 7) (mkHandle 12) error_state
    = (Throw (exc_error_already_set
                (fst (error_already_set_ctor failing_api error_state))),
       snd (error_already_set_ctor failing_api error_state))
  ∧ setattr failing_api (mkHandle 7) (mkHandle 12) (mkHandle 13) error_state
    = (Throw (exc_error_already_set
                (fst (error_already_set_ctor failing_api error_state))),
       snd (error_already_set_ctor failing_api error_state)).
Proof.
  destruct (hasattr_never_raises failing_api (mkHandle 7) (mkHandle 12)
              (mkHandle 13) "name" error_state)
    as (Hhas & _ & Hdel & _ & Hget & _ & Hset & _).
  split; [exact Hhas|].
  split; [apply (Hdel (-1) error_state); [reflexivity | lia]|].
  split; [apply (Hget error_state); reflexivity|].
  apply (Hset (-1) error_state); [reflexivity | lia].
Defined.

(** ** Constructors that allocate *)

Section ConstructorFacts.
Context {W : Type} (api : HostAPI W).
Implicit Types (s : PyState W).

Lemma fail_if_null_null (this_ : object) (reason : string) s :
  m_ptr this_ = nullptr →
  fail_if_null this_ reason s = (Throw (exc_std std_runtime_error reason), s).
Proof.
  intros Hnull. unfold fail_if_null, on_throw, object_dtor, handle_dec_ref.
  rewrite Hnull. reflexivity.
Qed.


(** A constructor of the shape [object(alloc(...), stolen_t{})] followed
    by the null check raises when the allocation returns null, in the
    state the allocation left. *)
Lemma stolen_checked_raises (alloc : PyState W → N * PyState W)
    (reason : string) s s1 :
  alloc s = (nullptr, s1) →
  bind (call alloc)
    (fun p => fail_if_null (object_stolen (mkHandle p)) reason) s
  = (Throw (exc_std std_runtime_error reason), s1).
Proof.
  intros Halloc. rewrite (bind_call _ _ _ _ _ Halloc).
  by apply fail_if_null_null.
Qed.

(** Every constructor of the sources that checks its allocation raises
    the fatal error when the allocation returns null. *)
Lemma checked_constructors_raise_on_null s :
  (∀ c n s1, PyUnicode_FromStringAndSize api c (ssize_t_of_size_t n) s = (nullptr, s1) →
     str_ctor_n api c n s
     = (Throw (exc_std std_runtime_error "Could not allocate string object!"), s1))
  ∧ (∀ c s1, PyUnicode_FromString api c s = (nullptr, s1) →
     str_ctor api c s
     = (Throw (exc_std std_runtime_error "Could not allocate string object!"), s1))
  ∧ (∀ c s1, PYBIND11_BYTES_FROM_STRING api c s = (nullptr, s1) →
     bytes_ctor api c s
     = (Throw (exc_std std_runtime_error "Could not allocate bytes object!"), s1))
  ∧ (∀ c n s1,
     PYBIND11_BYTES_FROM_STRING_AND_SIZE api c (ssize_t_of_size_t n) s = (nullptr, s1) →
     bytes_ctor_n api c n s
     = (Throw (exc_std std_runtime_error "Could not allocate bytes object!"), s1))
  ∧ (∀ v s1, PyFloat_FromDouble api v s = (nullptr, s1) →
     float__ctor_float api v s
     = (Throw (exc_std std_runtime_error "Could not allocate float object!"), s1)
     ∧ float__ctor_double api v s
       = (Throw (exc_std std_runtime_error "Could not allocate float object!"), s1))
  ∧ (∀ obj callback s1,
     PyWeakref_NewRef api (m_ptr obj) (m_ptr callback) s = (nullptr, s1) →
     weakref_ctor api obj callback s
     = (Throw (exc_std std_runtime_error "Could not allocate weak reference!"), s1))
  ∧ (∀ v name d s1, PyCapsule_New api v name d s = (nullptr, s1) →
     capsule_ctor_named api v name d s
     = (Throw (exc_std std_runtime_error "Could not allocate capsule object!"), s1))
  ∧ (∀ v d s1, PyCapsule_New api v None d s = (nullptr, s1) →
     capsule_ctor_deprecated api v d s
     = (Throw (exc_std std_runtime_error "Could not allocate capsule object!"), s1))
  ∧ (∀ thunk get_context get_pointer call_fn v d s1,
     PyCapsule_New api v None thunk s = (nullptr, s1) →
     capsule_ctor_void api thunk get_context get_pointer call_fn v d s
     = (Throw (exc_std std_runtime_error "Could not allocate capsule object!"), s1))
  ∧ (∀ thunk d s1, PyCapsule_New api d None thunk s = (nullptr, s1) →
     capsule_ctor_fn api thunk d s
     = (Throw (exc_std std_runtime_error "Could not allocate capsule object!"), s1))
  ∧ (∀ n s1, PyTuple_New api (ssize_t_of_size_t n) s = (nullptr, s1) →
     tuple_ctor api n s
     = (Throw (exc_std std_runtime_error "Could not allocate tuple object!"), s1))
  ∧ (∀ s1, PyDict_New api s = (nullptr, s1) →
     dict_ctor api s
     = (Throw (exc_std std_runtime_error "Could not allocate dict object!"), s1))
  ∧ (∀ n s1, PyList_New api (ssize_t_of_size_t n) s = (nullptr, s1) →
     list_ctor api n s
     = (Throw (exc_std std_runtime_error "Could not allocate list object!"), s1))
  ∧ (∀ s1, PySet_New api nullptr s = (nullptr, s1) →
     set_ctor api s
     = (Throw (exc_std std_runtime_error "Could not allocate set object!"), s1)).
Proof.
  repeat split; intros;
    first [ by apply stolen_checked_raises
          | unfold capsule_ctor_void, capsule_ctor_fn;
            match goal with
            | H : PyCapsule_New _ _ _ _ _ = _ |- _ =>
                by rewrite (bind_call _ _ _ _ _ H)
            end ].
Qed.

(** [slice]: when the three [int_] locals are built and [PySlice_New]
    returns null, the constructor raises, the locals being destroyed. *)
Lemma slice_ctor_raises_on_null (a b c : Z) (o1 o2 o3 : object) s s1 s2 s3 s4 :
  int__from_ssize_t api a s = (Ok o1, s1) →
  int__from_ssize_t api b s1 = (Ok o2, s2) →
  int__from_ssize_t api c s2 = (Ok o3, s3) →
  PySlice_New api (m_ptr o1) (m_ptr o2) (m_ptr o3) s3 = (nullptr, s4) →
  slice_ctor api a b c s
  = (Throw (exc_std std_runtime_error "Could not allocate slice object!"),
     object_dtor o1 (object_dtor o2 (object_dtor o3 s4))).
Proof.
  intros H1 H2 H3 H4. unfold slice_ctor, on_throw, finally, bind.
  rewrite H1, H2, H3. unfold call, handle_ptr. rewrite H4. reflexivity.
Qed.

(** [str] from [bytes] and [bytes] from [str]: a null result of the last
    allocation raises. *)
Lemma str_ctor_bytes_raises_on_null (b : object) (buffer : string) (length : Z)
    s s1 s2 :
  PYBIND11_BYTES_AS_STRING_AND_SIZE api (m_ptr b) s = ((0, (buffer, length)), s1) →
  PyUnicode_FromStringAndSize api buffer length s1 = (nullptr, s2) →
  str_ctor_bytes api b s
  = (Throw (exc_std std_runtime_error "Could not allocate string object!"), s2).
Proof.
  intros H1 H2. unfold str_ctor_bytes.
  rewrite (bind_call _ _ _ _ _ H1). cbv beta iota.
  change (negb (0 =? 0)) with false. cbv beta iota.
  rewrite (bind_call _ _ _ _ _ H2). reflexivity.
Qed.

Lemma bytes_ctor_str_raises_on_null (str_ temp : object) (buffer : string)
    (length : Z) s s0 s1 s2 :
  utf8_temp api str_ s = (Ok temp, s0) →
  PYBIND11_BYTES_AS_STRING_AND_SIZE api (m_ptr temp) s0 = ((0, (buffer, length)), s1) →
  PYBIND11_BYTES_FROM_STRING_AND_SIZE api buffer length s1 = (nullptr, s2) →
  bytes_ctor_str api str_ s
  = (Throw (exc_std std_runtime_error "Could not allocate bytes object!"),
     object_dtor temp s2).
Proof.
  intros H0 H1 H2. unfold bytes_ctor_str, bind at 1. rewrite H0.
  unfold finally. rewrite (bind_call _ _ _ _ _ H1). cbv beta iota.
  change (negb (0 =? 0)) with false. cbv beta iota.
  rewrite (bind_call _ _ _ _ _ H2). reflexivity.
Qed.

(** [int_()] has no check: whatever [PyLong_FromLong(0)] returns is
    stored, a null pointer included, and nothing is raised. *)
Lemma int__ctor_stores_result s :
  int__ctor api s
  = (Ok (mkHandle (fst (PyLong_FromLong api 0 s))), snd (PyLong_FromLong api 0 s)).
Proof.
  unfold int__ctor, bind, call. by destruct (PyLong_FromLong api 0 s).
Qed.

(** [str(handle)] has no check either: with a runtime of major version 3
    or more, a null result of [PyObject_Str] is stored. *)
Lemma str_ctor_handle_stores_result (h : handle) s :
  3 ≤ PY_MAJOR_VERSION api →
  str_ctor_handle api h s
  = (Ok (mkHandle (fst (PyObject_Str api (m_ptr h) s))),
     snd (PyObject_Str api (m_ptr h) s)).
Proof.
  intros Hv. unfold str_ctor_handle, str_raw_str, bind, call, handle_ptr.
  destruct (PyObject_Str api (m_ptr h) s) as [p s1].
  assert ((PY_MAJOR_VERSION api <? 3) = false) as -> by (by apply Z.ltb_ge).
  reflexivity.
Qed.
End ConstructorFacts.

(** C2, at the input on which the code departs from it.  In the runtime
    where every allocation fails, [PyLong_FromLong(0)] returns null and
    [int_()] returns normally with the null pointer stored, while the other
    constructors of the list raise the fatal error on their null result. *)
Theorem int__ctor_stores_null :
  PyLong_FromLong failing_api 0 quiet_state = (nullptr, quiet_state)
  ∧ int__ctor failing_api quiet_state = (Ok (mkHandle nullptr), quiet_state)
  ∧ ¬ raises (int__ctor failing_api) quiet_state
  ∧ fails_with (float__ctor_double failing_api 0%float) quiet_state
      "Could not allocate float object!"
  ∧ fails_with (str_ctor failing_api "x") quiet_state
      "Could not allocate string object!"
  ∧ fails_with (bytes_ctor failing_api "x") quiet_state
      "Could not allocate bytes object!"
  ∧ fails_with (weakref_ctor failing_api (mkHandle 7) (mkHandle nullptr)) quiet_state
      "Could not allocate weak reference!"
  ∧ fails_with (capsule_ctor_named failing_api 7 None nullptr) quiet_state
      "Could not allocate capsule object!"
  ∧ fails_with (tuple_ctor failing_api 0) quiet_state
      "Could not allocate tuple object!"
  ∧ fails_with (dict_ctor failing_api) quiet_state
      "Could not allocate dict object!"
  ∧ fails_with (list_ctor failing_api 0) quiet_state
      "Could not allocate list object!"
  ∧ fails_with (set_ctor failing_api) quiet_state
      "Could not allocate set object!".
Proof.
  split; [reflexivity|]. split; [reflexivity|].
  split.
  { apply returns_not_raises. by exists (mkHandle nullptr), quiet_state. }
  repeat split; by exists quiet_state.
Qed.

(** * Further properties *)

(** ** Owning references over their lifetime *)

Section LifecycleFacts.
Context {W : Type}.
Implicit Types (s : PyState W) (p q : N) (c : Z).

Lemma Py_XDECREF_count p c s :
  p ≠ nullptr → ob_refcnt s !! p = Some c →
  ob_refcnt (Py_XDECREF p s) !! p = if c =? 1 then None else Some (c - 1).
Proof.
  intros Hp Hc. unfold Py_XDECREF. rewrite (is_null_false _ Hp), Hc.
  destruct (c =? 1) eqn:Hone.
  - apply Z.eqb_eq in Hone as ->. simpl. apply lookup_delete_eq.
  - assert ((c - 1 =? 0) = false) as ->.
    { apply Z.eqb_neq. apply Z.eqb_neq in Hone. lia. }
    simpl. apply lookup_insert_eq.
Qed.

Lemma Py_XDECREF_other p q s :
  p ≠ q → ob_refcnt (Py_XDECREF p s) !! q = ob_refcnt s !! q.
Proof.
  intros Hne. unfold Py_XDECREF. destruct (is_null p); [done|].
  destruct (ob_refcnt s !! p) as [c|]; [|done].
  destruct (c - 1 =? 0); simpl.
  - by rewrite lookup_delete_ne.
  - by rewrite lookup_insert_ne.
Qed.

Lemma Py_XDECREF_world p s : world (Py_XDECREF p s) = world s.
Proof.
  unfold Py_XDECREF. destruct (is_null p); [done|].
  destruct (ob_refcnt s !! p) as [c|]; [|done].
  by destruct (c - 1 =? 0).
Qed.

Lemma Py_DECREF_XDECREF p s : p ≠ nullptr → Py_DECREF p s = Py_XDECREF p s.
Proof. intros Hp. unfold Py_DECREF, Py_XDECREF. by rewrite (is_null_false _ Hp). Qed.

Lemma ref_balance_take_cons (op : ref_op) (ops : list ref_op) (n : nat) :
  ref_balance (take (S n) (op :: ops)) = ref_op_delta op + ref_balance (take n ops).
Proof. reflexivity. Qed.
End LifecycleFacts.

(** X1.  The ledger of a handle.  Over any sequence of [inc_ref] and
    [dec_ref] calls on a handle to an object of count [c], as long as the
    count stays positive after every call, the final count is [c] plus the
    increments minus the decrements; the counts of all other objects and the
    error indicator are untouched. *)
Theorem ref_ops_ledger {W} (h : handle) (ops : list ref_op) (s : PyState W) (c : Z) :
  m_ptr h ≠ nullptr →
  ob_refcnt s !! m_ptr h = Some c →
  (∀ n : nat, 0 < c + ref_balance (take n ops)) →
  ob_refcnt (run_ref_ops h ops s) !! m_ptr h = Some (c + ref_balance ops)
  ∧ (∀ q, q ≠ m_ptr h →
       ob_refcnt (run_ref_ops h ops s) !! q = ob_refcnt s !! q)
  ∧ curexc (run_ref_ops h ops s) = curexc s.
Proof.
  intros Hp. revert s c.
  induction ops as [|op ops IH]; intros s c Hc Hpos.
  - simpl. rewrite Z.add_0_r. done.
  - assert (ob_refcnt (run_ref_op h s op) !! m_ptr h = Some (c + ref_op_delta op)
            ∧ (∀ q, q ≠ m_ptr h →
                 ob_refcnt (run_ref_op h s op) !! q = ob_refcnt s !! q)
            ∧ curexc (run_ref_op h s op) = curexc s) as (Hstep & Hframe & Herr).
    { destruct op; unfold run_ref_op, handle_inc_ref, handle_dec_ref; simpl.
      - split; [by apply Py_XINCREF_count|].
        split; [|apply Py_XINCREF_curexc].
        intros q Hq. by apply Py_XINCREF_other.
      - pose proof (Hpos 1%nat) as H1. simpl in H1.
        rewrite (Py_XDECREF_count _ c s Hp Hc).
        assert ((c =? 1) = false) as -> by (apply Z.eqb_neq; lia).
        split; [f_equal; lia|].
        split; [|apply Py_XDECREF_curexc].
        intros q Hq. by apply Py_XDECREF_other. }
    assert (∀ n : nat, 0 < (c + ref_op_delta op) + ref_balance (take n ops)) as Hpos'.
    { intros n. pose proof (Hpos (S n)) as HS.
      rewrite ref_balance_take_cons in HS. lia. }
    destruct (IH _ _ Hstep Hpos') as (Hfinal & Hothers & Herr').
    change (run_ref_ops h (op :: ops) s) with (run_ref_ops h ops (run_ref_op h s op)).
    split; [rewrite Hfinal; simpl; f_equal; lia|].
    split.
    + intros q Hq. by rewrite Hothers, Hframe.
    + by rewrite Herr', Herr.
Qed.

Lemma ref_ops_ledger_witness :
  ob_refcnt (run_ref_ops (mkHandle 7)
               [op_inc_ref; op_inc_ref; op_dec_ref; op_dec_ref; op_inc_ref]
               quiet_state) !! 7%N
  = Some (1 + 1).
Proof.
  apply (ref_ops_ledger (mkHandle 7)
           [op_inc_ref; op_inc_ref; op_dec_ref; op_dec_ref; op_inc_ref]
           quiet_state 1).
  - discriminate.
  - reflexivity.
  - intros n. do 6 (destruct n as [|n]; [simpl; lia|]). simpl. lia.
Defined.

(** X2.  Copying an owning reference to a held object (the copy constructor,
    or construction with the [borrowed] tag) and destroying the copy leaves
    the runtime state exactly as it was; while the copy lives the count is
    one higher. *)
Theorem object_copy_then_destroy {W} (o : object) (s : PyState W) (c : Z) :
  m_ptr o ≠ nullptr →
  ob_refcnt s !! m_ptr o = Some c →
  0 < c →
  m_ptr (fst (object_copy o s)) = m_ptr o
  ∧ ob_refcnt (snd (object_copy o s)) !! m_ptr o = Some (c + 1)
  ∧ object_dtor (fst (object_copy o s)) (snd (object_copy o s)) = s
  ∧ object_borrowed o s = (o, snd (object_copy o s))
  ∧ object_dtor (fst (object_borrowed o s)) (snd (object_borrowed o s)) = s.
Proof.
  intros Hp Hc Hpos.
  unfold object_copy, object_borrowed, object_dtor, handle_inc_ref,
    handle_dec_ref. simpl.
  rewrite (Py_XDECREF_XINCREF _ c s Hc Hpos).
  repeat split. by apply Py_XINCREF_count.
Qed.

Lemma object_copy_then_destroy_witness :
  m_ptr (fst (object_copy (mkHandle 7) quiet_state)) = 7%N
  ∧ ob_refcnt (snd (object_copy (mkHandle 7) quiet_state)) !! 7%N = Some (1 + 1)
  ∧ object_dtor (fst (object_copy (mkHandle 7) quiet_state))
      (snd (object_copy (mkHandle 7) quiet_state)) = quiet_state
  ∧ object_borrowed (mkHandle 7) quiet_state
    = (mkHandle 7, snd (object_copy (mkHandle 7) quiet_state))
  ∧ object_dtor (fst (object_borrowed (mkHandle 7) quiet_state))
      (snd (object_borrowed (mkHandle 7) quiet_state)) = quiet_state.
Proof.
  apply (object_copy_then_destroy (mkHandle 7) quiet_state 1);
    [discriminate | reflexivity | lia].
Defined.





(** ** Builtins *)

(** X5.  [hash] returns whatever the runtime answers, in the state the
    runtime left, unless the answer is [-1]: then it throws the
    [error_already_set] built at that point.  So [hash] returns on every
    answer other than [-1], and never returns [-1].  [isinstance] likewise
    throws exactly on [-1], answers false on 0 and true on every other
    result. *)
Theorem hash_isinstance_minus_one {W} (api : HostAPI W) (ext : ObjectAPI W)
    (obj type : handle) (s : PyState W) :
  (∀ h s1, PyObject_Hash ext (m_ptr obj) s = (h, s1) →
     hash api ext obj s
     = if h =? -1
       then (Throw (exc_error_already_set (fst (error_already_set_ctor api s1))),
             snd (error_already_set_ctor api s1))
       else (Ok h, s1))
  ∧ (∀ h s1, hash api ext obj s = (Ok h, s1) → h ≠ -1)
  ∧ (∀ r s1, PyObject_IsInstance ext (m_ptr obj) (m_ptr type) s = (r, s1) →
       isinstance api ext obj type s
       = if r =? -1
         then (Throw (exc_error_already_set
                        (fst (error_already_set_ctor api s1))),
               snd (error_already_set_ctor api s1))
         else (Ok (negb (r =? 0)), s1))
  ∧ (∀ b s1, isinstance api ext obj type s = (Ok b, s1) →
       ∃ r, PyObject_IsInstance ext (m_ptr obj) (m_ptr type) s = (r, s1)
            ∧ r ≠ -1 ∧ (b = true ↔ r ≠ 0)).
Proof.
  split; [|split; [|split]].
  - intros h s1 Hcall. unfold hash. rewrite (bind_call _ _ _ _ _ Hcall).
    destruct (h =? -1); [|reflexivity].
    by rewrite throw_error_already_set_eq.
  - intros h s1. unfold hash, bind, call, handle_ptr.
    destruct (PyObject_Hash ext (m_ptr obj) s) as [r s0].
    destruct (r =? -1) eqn:Hr.
    + rewrite throw_error_already_set_eq. discriminate.
    + intros [= <- <-]. by apply Z.eqb_neq.
  - intros r s1 Hcall. unfold isinstance. rewrite (bind_call _ _ _ _ _ Hcall).
    destruct (r =? -1); [|reflexivity].
    by rewrite throw_error_already_set_eq.
  - intros b s1. unfold isinstance, bind, call, handle_ptr.
    destruct (PyObject_IsInstance ext (m_ptr obj) (m_ptr type) s) as [r s0].
    destruct (r =? -1) eqn:Hr.
    + rewrite throw_error_already_set_eq. discriminate.
    + intros [= <- <-]. exists r. split; [reflexivity|].
      split; [by apply Z.eqb_neq|].
      rewrite negb_true_iff. by rewrite Z.eqb_neq.
Qed.

Lemma hash_isinstance_minus_one_witness :
  hash answering_api answering_ext (mkHandle 7) quiet_state
  = (Ok 0, quiet_state)
  ∧ hash failing_api failing_ext (mkHandle 7) error_state
    = (Throw (exc_error_already_set
                (fst (error_already_set_ctor failing_api error_state))),
       snd (error_already_set_ctor failing_api error_state))
  ∧ isinstance answering_api (sized_ext 0 0 0 0 0) (mkHandle 7) (mkHandle 9)
      quiet_state
    = (Ok false, quiet_state).
Proof.
  split; [|split].
  - destruct (hash_isinstance_minus_one answering_api answering_ext
                (mkHandle 7) (mkHandle 7) quiet_state) as (Hhash & _).
    exact (Hhash 0 quiet_state eq_refl).
  - destruct (hash_isinstance_minus_one failing_api failing_ext
                (mkHandle 7) (mkHandle 7) error_state) as (Hhash & _).
    exact (Hhash (-1) error_state eq_refl).
  - destruct (hash_isinstance_minus_one answering_api (sized_ext 0 0 0 0 0)
                (mkHandle 7) (mkHandle 9) quiet_state) as (_ & _ & Hinst & _).
    exact (Hinst 0 quiet_state eq_refl).
Defined.

(** X6.  Reading an element.  [list_item::get] and [tuple_item::get] wrap
    the borrowed result in an owning reference: the element's count is one
    higher while the result lives, and dropping the result gives back the
    state the underlying call left.  [sequence_item::get] and
    [generic_item::get] steal the new reference returned to them: no count
    changes, and dropping the result gives that reference up.  All four
    raise when the underlying call returns null. *)
Theorem item_get_reference_counts {W} (api : HostAPI W) (ext : ObjectAPI W)
    (obj key : handle) (index : Z) (s : PyState W) :
  let i := ssize_t_of_size_t index in
  (∀ p s1 c,
     p ≠ nullptr → ob_refcnt s1 !! p = Some c → 0 < c →
     (PyList_GetItem ext (m_ptr obj) i s = (p, s1) →
      list_item_get api ext obj index s = (Ok (mkHandle p), Py_XINCREF p s1))
     ∧ (PyTuple_GetItem ext (m_ptr obj) i s = (p, s1) →
        tuple_item_get api ext obj index s = (Ok (mkHandle p), Py_XINCREF p s1))
     ∧ ob_refcnt (Py_XINCREF p s1) !! p = Some (c + 1)
     ∧ object_dtor (mkHandle p) (Py_XINCREF p s1) = s1
     ∧ (PySequence_GetItem ext (m_ptr obj) i s = (p, s1) →
        sequence_item_get api ext obj index s = (Ok (mkHandle p), s1))
     ∧ (PyObject_GetItem ext (m_ptr obj) (m_ptr key) s = (p, s1) →
        generic_item_get api ext obj key s = (Ok (mkHandle p), s1))
     ∧ ob_refcnt (object_dtor (mkHandle p) s1) !! p
       = (if c =? 1 then None else Some (c - 1)))
  ∧ (∀ s1,
       (PyList_GetItem ext (m_ptr obj) i s = (nullptr, s1) →
        list_item_get api ext obj index s = throw_error_already_set api s1)
       ∧ (PyTuple_GetItem ext (m_ptr obj) i s = (nullptr, s1) →
          tuple_item_get api ext obj index s = throw_error_already_set api s1)
       ∧ (PySequence_GetItem ext (m_ptr obj) i s = (nullptr, s1) →
          sequence_item_get api ext obj index s = throw_error_already_set api s1)
       ∧ (PyObject_GetItem ext (m_ptr obj) (m_ptr key) s = (nullptr, s1) →
          generic_item_get api ext obj key s = throw_error_already_set api s1)).
Proof.
  intros i. split.
  - intros p s1 c Hp Hc Hpos.
    pose proof (is_null_false _ Hp) as Hnn.
    repeat split.
    + intros Hcall. unfold list_item_get.
      rewrite (bind_call _ _ _ _ _ Hcall), Hnn. reflexivity.
    + intros Hcall. unfold tuple_item_get.
      rewrite (bind_call _ _ _ _ _ Hcall), Hnn. reflexivity.
    + by apply Py_XINCREF_count.
    + unfold object_dtor, handle_dec_ref. simpl.
      by apply (Py_XDECREF_XINCREF _ c).
    + intros Hcall. unfold sequence_item_get.
      rewrite (bind_call _ _ _ _ _ Hcall), Hnn. reflexivity.
    + intros Hcall. unfold generic_item_get.
      rewrite (bind_call _ _ _ _ _ Hcall), Hnn. reflexivity.
    + unfold object_dtor, handle_dec_ref. simpl. by apply Py_XDECREF_count.
  - intros s1. repeat split; intros Hcall.
    + unfold list_item_get. by rewrite (bind_call _ _ _ _ _ Hcall).
    + unfold tuple_item_get. by rewrite (bind_call _ _ _ _ _ Hcall).
    + unfold sequence_item_get. by rewrite (bind_call _ _ _ _ _ Hcall).
    + unfold generic_item_get. by rewrite (bind_call _ _ _ _ _ Hcall).
Qed.

Lemma item_get_reference_counts_witness :
  list_item_get answering_api answering_ext (mkHandle 9) 0 quiet_state
    = (Ok (mkHandle 7), Py_XINCREF 7 quiet_state)
  ∧ object_dtor (mkHandle 7) (Py_XINCREF 7 quiet_state) = quiet_state
  ∧ sequence_item_get answering_api answering_ext (mkHandle 9) 0 quiet_state
    = (Ok (mkHandle 7), quiet_state)
  ∧ ob_refcnt (object_dtor (mkHandle 7) quiet_state) !! 7%N = None.
Proof.
  destruct (item_get_reference_counts answering_api answering_ext (mkHandle 9)
              (mkHandle 9) 0 quiet_state) as [Hok _].
  destruct (Hok 7%N quiet_state 1 ltac:(discriminate) eq_refl ltac:(lia))
    as (Hlist & _ & _ & Hdrop & Hseq & _ & Hgive).
  split; [by apply Hlist|]. split; [exact Hdrop|].
  split; [by apply Hseq | exact Hgive].
Defined.

(** X7.  [PyIterable_Check] answers whether [PyObject_GetIter] returned an
    iterator, and cleans up after itself: when the answer is no, the error
    indicator is empty afterwards; when it is yes, the reference to the
    iterator is given up (an iterator held only by that reference is
    deallocated) and the indicator is as the call left it. *)
Theorem PyIterable_Check_cleans_up {W} (ext : ObjectAPI W) (obj : N)
    (s : PyState W) :
  (∀ s1, PyObject_GetIter ext obj s = (nullptr, s1) →
     PyIterable_Check ext obj s = (false, PyErr_Clear s1)
     ∧ curexc (PyErr_Clear s1) = no_error)
  ∧ (∀ it s1 c,
       PyObject_GetIter ext obj s = (it, s1) → it ≠ nullptr →
       ob_refcnt s1 !! it = Some c →
       fst (PyIterable_Check ext obj s) = true
       ∧ ob_refcnt (snd (PyIterable_Check ext obj s)) !! it
         = (if c =? 1 then None else Some (c - 1))
       ∧ curexc (snd (PyIterable_Check ext obj s)) = curexc s1).
Proof.
  split.
  - intros s1 Hcall. unfold PyIterable_Check. rewrite Hcall. simpl.
    split; [reflexivity | apply PyErr_Clear_curexc].
  - intros it s1 c Hcall Hit Hc. unfold PyIterable_Check.
    rewrite Hcall, (is_null_false _ Hit). simpl.
    rewrite (Py_DECREF_XDECREF _ _ Hit).
    split; [reflexivity|].
    split; [by apply Py_XDECREF_count | apply Py_XDECREF_curexc].
Qed.

Lemma PyIterable_Check_cleans_up_witness :
  (PyIterable_Check failing_ext 7 error_state = (false, PyErr_Clear error_state)
   ∧ curexc (PyErr_Clear error_state) = no_error)
  ∧ fst (PyIterable_Check answering_ext 9 quiet_state) = true
  ∧ ob_refcnt (snd (PyIterable_Check answering_ext 9 quiet_state)) !! 7%N = None.
Proof.
  split.
  - destruct (PyIterable_Check_cleans_up failing_ext 7 error_state) as [Hno _].
    apply (Hno error_state). reflexivity.
  - destruct (PyIterable_Check_cleans_up answering_ext 9 quiet_state) as [_ Hyes].
    destruct (Hyes 7%N quiet_state 1 eq_refl ltac:(discriminate) eq_refl)
      as (Htrue & Hgone & _).
    split; [exact Htrue | exact Hgone].
Defined.

(** X8.  Lazy start and idempotent dereference.  Dereferencing an iterator
    that has nothing cached polls the underlying iterator once and caches
    the element produced; dereferencing the result again, in whatever state,
    returns the same element without polling and without changing the
    state.  Dereferencing the sentinel never polls. *)
Theorem iterator_deref_lazy_then_idempotent {W} (api : HostAPI W)
    (it : iterator) (s s1 : PyState W) (p : N) :
  m_ptr (it_object it) ≠ nullptr →
  value it = mkHandle nullptr →
  PyIter_Next api (m_ptr (it_object it)) s = (p, s1) →
  p ≠ nullptr →
  PyErr_Occurred s1 = nullptr →
  let it' := mkIterator (it_object it) (mkHandle p) in
  iterator_deref api it s = (Ok (mkHandle p), it', s1)
  ∧ (∀ s' : PyState W, iterator_deref api it' s' = (Ok (mkHandle p), it', s'))
  ∧ (∀ s' : PyState W,
       iterator_deref api iterator_sentinel s'
       = (Ok (mkHandle nullptr), iterator_sentinel, s')).
Proof.
  intros Hit Hval Hnext Hp Hquiet it'.
  split; [|split].
  - unfold iterator_deref. rewrite (is_null_false _ Hit), Hval. simpl.
    unfold iterator_advance. rewrite Hnext, Hval. simpl.
    unfold object_dtor, handle_dec_ref. simpl.
    rewrite !Py_XDECREF_null, Hquiet. reflexivity.
  - intros s'. unfold iterator_deref. simpl.
    rewrite (is_null_false _ Hp), andb_false_r. reflexivity.
  - intros s'. reflexivity.
Qed.

Lemma iterator_deref_lazy_then_idempotent_witness :
  iterator_deref answering_api (mkIterator (mkHandle 9) (mkHandle nullptr))
    quiet_state
  = (Ok (mkHandle 7), mkIterator (mkHandle 9) (mkHandle 7), quiet_state)
  ∧ iterator_deref answering_api (mkIterator (mkHandle 9) (mkHandle 7)) error_state
    = (Ok (mkHandle 7), mkIterator (mkHandle 9) (mkHandle 7), error_state).
Proof.
  destruct (iterator_deref_lazy_then_idempotent answering_api
              (mkIterator (mkHandle 9) (mkHandle nullptr)) quiet_state quiet_state
              7%N ltac:(discriminate) eq_refl eq_refl ltac:(discriminate) eq_refl)
    as (Hfirst & Hagain & _).
  split; [exact Hfirst | apply Hagain].
Defined.

(** X9.  A C++ [bool] survives the trip through [bool_]: [bool_(b)] borrows
    the singleton for [b], taking one reference to it, and when the runtime
    reads the true singleton as non-zero and the false one as zero,
    [operator bool] on the result gives [b] back.  An empty [bool_] converts
    to false without a call into the runtime. *)
Theorem bool__round_trip {W} (ext : ObjectAPI W) (b : bool) (s : PyState W) :
  Py_True ext ≠ nullptr →
  Py_False ext ≠ nullptr →
  (∀ s', fst (PyLong_AsLong ext (Py_True ext) s') ≠ 0) →
  (∀ s', fst (PyLong_AsLong ext (Py_False ext) s') = 0) →
  let single := if b then Py_True ext else Py_False ext in
  bool__ctor ext b s = (Ok (mkHandle single), Py_XINCREF single s)
  ∧ fst (bool__to_bool ext (mkHandle single) (Py_XINCREF single s)) = b
  ∧ bool__to_bool ext (mkHandle nullptr) s = (false, s).
Proof.
  intros Ht Hf Hvt Hvf single.
  split; [reflexivity|]. split; [|reflexivity].
  unfold bool__to_bool. simpl.
  assert (single ≠ nullptr) as Hs by (subst single; by destruct b).
  rewrite (is_null_false _ Hs). simpl.
  destruct (PyLong_AsLong ext single (Py_XINCREF single s)) as [v s1] eqn:Hv.
  simpl. subst single. destruct b.
  - pose proof (Hvt (Py_XINCREF (Py_True ext) s)) as Hx.
    rewrite Hv in Hx. simpl in Hx.
    apply negb_true_iff. by apply Z.eqb_neq.
  - pose proof (Hvf (Py_XINCREF (Py_False ext) s)) as Hx.
    rewrite Hv in Hx. simpl in Hx. subst v. reflexivity.
Qed.

Lemma bool__round_trip_witness :
  bool__ctor answering_ext true shared_state
    = (Ok (mkHandle 22), Py_XINCREF 22 shared_state)
  ∧ fst (bool__to_bool answering_ext (mkHandle 22) (Py_XINCREF 22 shared_state))
    = true
  ∧ bool__to_bool answering_ext (mkHandle nullptr) shared_state
    = (false, shared_state).
Proof.
  apply (bool__round_trip answering_ext true shared_state);
    [discriminate | discriminate | intros s'; simpl; lia | reflexivity].
Defined.

(** X10.  [raw_bool] returns null exactly when the truth query fails with
    [-1]; otherwise it returns one of the two singletons, the true one for
    every non-zero answer, with one more reference taken on it (a new
    reference for the caller). *)
Theorem raw_bool_new_reference {W} (ext : ObjectAPI W) (op : N)
    (s s1 : PyState W) (v c : Z) :
  Py_True ext ≠ nullptr →
  Py_False ext ≠ nullptr →
  PyObject_IsTrue ext op s = (v, s1) →
  let single := if negb (v =? 0) then Py_True ext else Py_False ext in
  ob_refcnt s1 !! single = Some c →
  (v = -1 → bool__raw_bool ext op s = (nullptr, s1))
  ∧ (v ≠ -1 →
     bool__raw_bool ext op s = (single, Py_XINCREF single s1)
     ∧ single ≠ nullptr
     ∧ ob_refcnt (Py_XINCREF single s1) !! single = Some (c + 1)).
Proof.
  intros Ht Hf Hcall single Hc.
  assert (single ≠ nullptr) as Hs.
  { subst single. by destruct (negb (v =? 0)). }
  split.
  - intros ->. unfold bool__raw_bool. rewrite Hcall. reflexivity.
  - intros Hv. unfold bool__raw_bool. rewrite Hcall.
    assert ((v =? -1) = false) as -> by (by apply Z.eqb_neq).
    split; [reflexivity|]. split; [exact Hs|].
    by apply Py_XINCREF_count.
Qed.

Lemma raw_bool_new_reference_witness :
  bool__raw_bool answering_ext 7 shared_state = (23%N, Py_XINCREF 23 shared_state)
  ∧ ob_refcnt (Py_XINCREF 23 shared_state) !! 23%N = Some (5 + 1).
Proof.
  destruct (raw_bool_new_reference answering_ext 7 shared_state shared_state 0 5
              ltac:(discriminate) ltac:(discriminate) eq_refl eq_refl)
    as [_ Hok].
  destruct (Hok ltac:(lia)) as (Hres & _ & Hcount).
  split; [exact Hres | exact Hcount].
Defined.

Lemma size_via_answer {W} (query : N → PyState W → Z * PyState W)
    (this_ : object) (s s1 : PyState W) (r : Z) :
  query (m_ptr this_) s = (r, s1) →
  in_ssize_t r →
  size_via query this_ s = (if r <? 0 then r + 2 ^ 64 else r, s1)
  ∧ empty_via query this_ s = (r =? 0, s1).
Proof.
  intros Hq [Hlo Hhi]. unfold empty_via, size_via. rewrite Hq.
  assert (size_t_of_ssize_t r = if r <? 0 then r + 2 ^ 64 else r) as ->.
  { unfold size_t_of_ssize_t. destruct (Z.ltb_spec r 0) as [Hneg|Hnn].
    - symmetry. apply (Z.mod_unique r (2 ^ 64) (-1)); lia.
    - apply Z.mod_small. lia. }
  split; [reflexivity|]. f_equal.
  destruct (Z.ltb_spec r 0) as [Hneg|Hnn]; [|reflexivity].
  destruct (Z.eqb_spec (r + 2 ^ 64) 0), (Z.eqb_spec r 0); try reflexivity; lia.
Qed.

(** X11.  [size()] and [empty()] of [tuple], [dict], [sequence], [list] and
    [set] never raise, and each asks the size query of its own type, once.
    For an answer [r] of that query (an [ssize_t]): [size()] is [r] itself
    when [r] is not negative and [r + 2^64] when it is, so a failed query
    ([-1]) gives the largest [size_t]; [empty()] is true exactly when [r] is
    0, so a failed query reads as not empty; both leave the state the query
    left, with its error still pending. *)
Theorem container_size_edge {W} (ext : ObjectAPI W) (this_ : object)
    (s : PyState W) :
  (∀ r s1, PyTuple_Size ext (m_ptr this_) s = (r, s1) → in_ssize_t r →
     tuple_size ext this_ s = (if r <? 0 then r + 2 ^ 64 else r, s1)
     ∧ tuple_empty ext this_ s = (r =? 0, s1))
  ∧ (∀ r s1, PyDict_Size ext (m_ptr this_) s = (r, s1) → in_ssize_t r →
       dict_size ext this_ s = (if r <? 0 then r + 2 ^ 64 else r, s1)
       ∧ dict_empty ext this_ s = (r =? 0, s1))
  ∧ (∀ r s1, PySequence_Size ext (m_ptr this_) s = (r, s1) → in_ssize_t r →
       sequence_size ext this_ s = (if r <? 0 then r + 2 ^ 64 else r, s1)
       ∧ sequence_empty ext this_ s = (r =? 0, s1))
  ∧ (∀ r s1, PyList_Size ext (m_ptr this_) s = (r, s1) → in_ssize_t r →
       list_size ext this_ s = (if r <? 0 then r + 2 ^ 64 else r, s1)
       ∧ list_empty ext this_ s = (r =? 0, s1))
  ∧ (∀ r s1, PySet_Size ext (m_ptr this_) s = (r, s1) → in_ssize_t r →
       set_size ext this_ s = (if r <? 0 then r + 2 ^ 64 else r, s1)
       ∧ set_empty ext this_ s = (r =? 0, s1)).
Proof.
  split; [|split; [|split; [|split]]]; intros r s1 Hq Hr;
    exact (size_via_answer _ this_ s s1 r Hq Hr).
Qed.

Lemma container_size_edge_witness :
  (tuple_size five_sizes_ext (mkHandle 7) quiet_state
   = (2 ^ 64 - 1, quiet_state)
   ∧ tuple_empty five_sizes_ext (mkHandle 7) quiet_state
     = (false, quiet_state))
  ∧ (dict_size five_sizes_ext (mkHandle 7) quiet_state = (0, quiet_state)
     ∧ dict_empty five_sizes_ext (mkHandle 7) quiet_state
       = (true, quiet_state))
  ∧ (sequence_size five_sizes_ext (mkHandle 7) quiet_state = (3, quiet_state)
     ∧ sequence_empty five_sizes_ext (mkHandle 7) quiet_state
       = (false, quiet_state))
  ∧ (list_size five_sizes_ext (mkHandle 7) quiet_state = (5, quiet_state)
     ∧ list_empty five_sizes_ext (mkHandle 7) quiet_state
       = (false, quiet_state))
  ∧ (set_size five_sizes_ext (mkHandle 7) quiet_state = (2 ^ 63, quiet_state)
     ∧ set_empty five_sizes_ext (mkHandle 7) quiet_state
       = (false, quiet_state)).
Proof.
  destruct (container_size_edge five_sizes_ext (mkHandle 7) quiet_state)
    as (Htuple & Hdict & Hsequence & Hlist & Hset).
  split; [|split; [|split; [|split]]].
  - apply (Htuple (-1) quiet_state eq_refl). unfold in_ssize_t. lia.
  - apply (Hdict 0 quiet_state eq_refl). unfold in_ssize_t. lia.
  - apply (Hsequence 3 quiet_state eq_refl). unfold in_ssize_t. lia.
  - apply (Hlist 5 quiet_state eq_refl). unfold in_ssize_t. lia.
  - apply (Hset (- 2 ^ 63) quiet_state eq_refl). unfold in_ssize_t. lia.
Defined.

(** X12.  [len] and [len_hint] return the answer of their query as it is
    whenever it is not negative, in the state the query left; so on every
    object whose length can be computed they agree with the runtime. *)
Theorem len_returns_answer {W} (api : HostAPI W) (h : handle) (s s1 : PyState W)
    (r : Z) :
  0 ≤ r < 2 ^ 63 →
  (PyObject_Length api (m_ptr h) s = (r, s1) → len api h s = (Ok r, s1))
  ∧ (len_hint_query api (m_ptr h) s = (r, s1) → len_hint api h s = (Ok r, s1)).
Proof.
  intros Hr.
  assert ((r <? 0) = false) as Hnn by (apply Z.ltb_ge; lia).
  assert (size_t_of_ssize_t r = r) as Hcast.
  { unfold size_t_of_ssize_t. apply Z.mod_small. lia. }
  split; intros Hq.
  - unfold len. by rewrite (bind_call _ _ _ _ _ Hq), Hnn, Hcast.
  - unfold len_hint. by rewrite (bind_call _ _ _ _ _ Hq), Hnn, Hcast.
Qed.

Lemma len_returns_answer_witness :
  len answering_api (mkHandle 7) quiet_state = (Ok 0, quiet_state)
  ∧ len_hint answering_api (mkHandle 7) quiet_state = (Ok 0, quiet_state).
Proof.
  destruct (len_returns_answer answering_api (mkHandle 7) quiet_state quiet_state 0
              ltac:(lia)) as [Hlen Hhint].
  split; [by apply Hlen | by apply Hhint].
Defined.

(** X13.  [initialize_interpreter] refuses to start a second interpreter:
    when one is running it raises the fatal error "The interpreter is
    already running" and leaves the state as it is, so neither
    [Py_InitializeEx] nor the change of [sys.path] happens.  When none is
    running, the runtime is initialized with the flag 1 or 0 and then the
    working directory is appended to [sys.path]. *)
Theorem initialize_interpreter_once {W} (ext : ObjectAPI W)
    (init_signal_handlers : bool) (s : PyState W) :
  (Py_IsInitialized ext s ≠ 0 →
   initialize_interpreter ext init_signal_handlers s
   = (Throw (exc_std std_runtime_error "The interpreter is already running"), s))
  ∧ (Py_IsInitialized ext s = 0 →
     initialize_interpreter ext init_signal_handlers s
     = sys_path_append_cwd ext
         (Py_InitializeEx ext (if init_signal_handlers then 1 else 0) s)).
Proof.
  split; intros Hrun; unfold initialize_interpreter.
  - assert (negb (Py_IsInitialized ext s =? 0) = true) as ->.
    { apply negb_true_iff. by apply Z.eqb_neq. }
    reflexivity.
  - rewrite Hrun. reflexivity.
Qed.

Lemma initialize_interpreter_once_witness :
  initialize_interpreter failing_ext true quiet_state
    = (Throw (exc_std std_runtime_error "The interpreter is already running"),
       quiet_state)
  ∧ initialize_interpreter answering_ext true quiet_state = (Ok tt, quiet_state).
Proof.
  destruct (initialize_interpreter_once failing_ext true quiet_state)
    as [Hrunning _].
  destruct (initialize_interpreter_once answering_ext true quiet_state)
    as [_ Hfresh].
  split; [apply Hrunning; discriminate | apply Hfresh; reflexivity].
Defined.

(** ** Iterator policies *)

Lemma ssize_t_wrap_small (x : Z) : in_ssize_t x → ssize_t_wrap x = x.
Proof.
  intros [Hlo Hhi]. unfold ssize_t_wrap. rewrite Z.mod_small; lia.
Qed.

Lemma ssize_t_wrap_add_l (a b : Z) :
  ssize_t_wrap (ssize_t_wrap a + b) = ssize_t_wrap (a + b).
Proof.
  unfold ssize_t_wrap. f_equal.
  replace ((a + 2 ^ 63) mod 2 ^ 64 - 2 ^ 63 + b + 2 ^ 63)
    with ((a + 2 ^ 63) mod 2 ^ 64 + b) by lia.
  rewrite Zplus_mod_idemp_l. f_equal. lia.
Qed.

Lemma ssize_t_wrap_zero (d : Z) :
  - 2 ^ 64 < d < 2 ^ 64 → ssize_t_wrap d = 0 → d = 0.
Proof.
  intros Hd Hw. unfold ssize_t_wrap in Hw.
  pose proof (Z.div_mod (d + 2 ^ 63) (2 ^ 64) ltac:(lia)) as Hdm.
  assert ((d + 2 ^ 63) mod 2 ^ 64 = 2 ^ 63) as Hm by lia.
  rewrite Hm in Hdm. lia.
Qed.

Lemma slot_add_add (p n m : Z) : slot_add (slot_add p n) m = slot_add p (n + m).
Proof.
  unfold slot_add. rewrite Zplus_mod_idemp_l. f_equal. lia.
Qed.

(** X14.  Arithmetic of the index-based iterator.  For an index and a step
    that stay within [ssize_t]: advancing by [n] moves the index by [n] and
    puts the iterator at distance [n] from where it was; two advances add
    up; [increment] and [decrement] are advances by 1 and -1 and undo each
    other; and the advanced iterator equals the original exactly when [n]
    is 0.  The owner is never changed. *)
Theorem sequence_slow_readwrite_arithmetic (it : sequence_slow_readwrite) (n m : Z) :
  in_ssize_t (srw_index it) →
  in_ssize_t n →
  in_ssize_t (srw_index it + n) →
  srw_index (sequence_slow_readwrite_advance it n) = srw_index it + n
  ∧ srw_obj (sequence_slow_readwrite_advance it n) = srw_obj it
  ∧ sequence_slow_readwrite_distance_to (sequence_slow_readwrite_advance it n) it = n
  ∧ sequence_slow_readwrite_advance (sequence_slow_readwrite_advance it n) m
    = sequence_slow_readwrite_advance it (n + m)
  ∧ sequence_slow_readwrite_increment it = sequence_slow_readwrite_advance it 1
  ∧ sequence_slow_readwrite_decrement it = sequence_slow_readwrite_advance it (-1)
  ∧ sequence_slow_readwrite_decrement (sequence_slow_readwrite_increment it) = it
  ∧ sequence_slow_readwrite_increment (sequence_slow_readwrite_decrement it) = it
  ∧ (sequence_slow_readwrite_equal (sequence_slow_readwrite_advance it n) it = true
     ↔ n = 0).
Proof.
  intros Hi Hn Hin. destruct it as [o i]. simpl in *.
  unfold sequence_slow_readwrite_advance, sequence_slow_readwrite_distance_to,
    sequence_slow_readwrite_increment, sequence_slow_readwrite_decrement,
    sequence_slow_readwrite_equal. simpl.
  rewrite (ssize_t_wrap_small _ Hin).
  split; [reflexivity|]. split; [reflexivity|].
  split. { replace (i + n - i) with n by lia. by apply ssize_t_wrap_small. }
  split. { f_equal. rewrite <- (ssize_t_wrap_small _ Hin), ssize_t_wrap_add_l.
           f_equal. lia. }
  split; [reflexivity|]. split; [reflexivity|].
  split. { f_equal. replace (ssize_t_wrap (i + 1) - 1)
             with (ssize_t_wrap (i + 1) + -1) by lia.
           rewrite ssize_t_wrap_add_l. replace (i + 1 + -1) with i by lia.
           by apply ssize_t_wrap_small. }
  split. { f_equal. replace (i - 1) with (i + -1) by lia.
           rewrite ssize_t_wrap_add_l. replace (i + -1 + 1) with i by lia.
           by apply ssize_t_wrap_small. }
  rewrite Z.eqb_eq. lia.
Qed.

Lemma sequence_slow_readwrite_arithmetic_witness :
  sequence_slow_readwrite_distance_to
    (sequence_slow_readwrite_advance (mkSlowReadwrite (mkHandle 7) 2) 3)
    (mkSlowReadwrite (mkHandle 7) 2) = 3
  ∧ sequence_slow_readwrite_decrement
      (sequence_slow_readwrite_increment (mkSlowReadwrite (mkHandle 7) 2))
    = mkSlowReadwrite (mkHandle 7) 2.
Proof.
  destruct (sequence_slow_readwrite_arithmetic (mkSlowReadwrite (mkHandle 7) 2) 3 0)
    as (_ & _ & Hdist & _ & _ & _ & Hundo & _);
    [unfold in_ssize_t; simpl; lia ..|].
  split; [exact Hdist | exact Hundo].
Defined.

(** X15.  Equality of index-based iterators looks at the index only: two
    iterators at the same index are equal even over different owners, and
    for indices within [ssize_t] equality holds exactly when the distance
    between the two is 0.  The accessor obtained by dereferencing carries
    the owner and the index as a [size_t], which is the index itself when it
    is not negative. *)
Theorem sequence_slow_readwrite_equal_by_index (a b : sequence_slow_readwrite) :
  in_ssize_t (srw_index a) →
  in_ssize_t (srw_index b) →
  (sequence_slow_readwrite_equal a b = true ↔ srw_index a = srw_index b)
  ∧ (sequence_slow_readwrite_equal a b = true
     ↔ sequence_slow_readwrite_distance_to a b = 0)
  ∧ (∀ o : handle,
       sequence_slow_readwrite_equal a (mkSlowReadwrite o (srw_index a)) = true)
  ∧ (0 ≤ srw_index a →
     sequence_slow_readwrite_dereference a = (srw_obj a, srw_index a)).
Proof.
  intros [Ha1 Ha2] [Hb1 Hb2].
  unfold sequence_slow_readwrite_equal, sequence_slow_readwrite_distance_to,
    sequence_slow_readwrite_dereference.
  split; [apply Z.eqb_eq|].
  split.
  - rewrite Z.eqb_eq. split.
    + intros ->. by rewrite Z.sub_diag.
    + intros Hw. apply ssize_t_wrap_zero in Hw; lia.
  - split.
    + intros o. simpl. apply Z.eqb_refl.
    + intros Hnn. f_equal. unfold size_t_of_ssize_t. apply Z.mod_small. lia.
Qed.

Lemma sequence_slow_readwrite_equal_by_index_witness :
  sequence_slow_readwrite_equal (mkSlowReadwrite (mkHandle 7) 4)
    (mkSlowReadwrite (mkHandle 9) 4) = true
  ∧ sequence_slow_readwrite_dereference (mkSlowReadwrite (mkHandle 7) 4)
    = (mkHandle 7, 4).
Proof.
  destruct (sequence_slow_readwrite_equal_by_index (mkSlowReadwrite (mkHandle 7) 4)
              (mkSlowReadwrite (mkHandle 9) 4))
    as (_ & _ & Hany & Hderef); [unfold in_ssize_t; simpl; lia ..|].
  split; [apply (Hany (mkHandle 9)) | apply Hderef; simpl; lia].
Defined.

(** X16.  The pointer-based iterator.  Two iterators built over the same
    object at offsets [a] and [b], both slots being addressable and no
    further apart than an [ssize_t] can tell, are at distance [a - b]; they
    are equal exactly when [a = b]; and advancing the one at [b] by
    [a - b] gives the one at [a].  Advances add up, and [increment] and
    [decrement] are advances by 1 and -1. *)
Theorem sequence_fast_readonly_offsets {W} (ext : ObjectAPI W) (obj : handle)
    (a b : Z) (s : PyState W) :
  let base := PySequence_Fast_ITEMS ext (m_ptr obj) s in
  0 ≤ base + 8 * a < 2 ^ 64 →
  0 ≤ base + 8 * b < 2 ^ 64 →
  in_ssize_t (8 * (a - b)) →
  sequence_fast_readonly_distance_to (sequence_fast_readonly_ctor ext obj a s)
    (sequence_fast_readonly_ctor ext obj b s) = a - b
  ∧ (sequence_fast_readonly_equal (sequence_fast_readonly_ctor ext obj a s)
       (sequence_fast_readonly_ctor ext obj b s) = true ↔ a = b)
  ∧ sequence_fast_readonly_advance (sequence_fast_readonly_ctor ext obj b s) (a - b)
    = sequence_fast_readonly_ctor ext obj a s
  ∧ (∀ it n m,
       sequence_fast_readonly_advance (sequence_fast_readonly_advance it n) m
       = sequence_fast_readonly_advance it (n + m))
  ∧ (∀ it,
       sequence_fast_readonly_increment it = sequence_fast_readonly_advance it 1
       ∧ sequence_fast_readonly_decrement it
         = sequence_fast_readonly_advance it (-1)).
Proof.
  intros base Ha Hb Hab.
  unfold sequence_fast_readonly_distance_to, sequence_fast_readonly_equal,
    sequence_fast_readonly_advance, sequence_fast_readonly_ctor, handle_ptr.
  fold base. simpl.
  assert (slot_add base a = base + 8 * a) as Hsa
    by (unfold slot_add; apply Z.mod_small; lia).
  assert (slot_add base b = base + 8 * b) as Hsb
    by (unfold slot_add; apply Z.mod_small; lia).
  split.
  { rewrite Hsa, Hsb. unfold slot_diff.
    replace (base + 8 * a - (base + 8 * b)) with (8 * (a - b)) by lia.
    rewrite (ssize_t_wrap_small _ Hab).
    rewrite Z.mul_comm. apply Z.quot_mul. lia. }
  split.
  { rewrite Hsa, Hsb, Z.eqb_eq. lia. }
  split.
  { f_equal. rewrite slot_add_add. f_equal. lia. }
  split.
  { intros it n m. f_equal. apply slot_add_add. }
  intros it. split; reflexivity.
Qed.

Lemma sequence_fast_readonly_offsets_witness :
  sequence_fast_readonly_distance_to
    (sequence_fast_readonly_ctor answering_ext (mkHandle 7) 5 quiet_state)
    (sequence_fast_readonly_ctor answering_ext (mkHandle 7) 0 quiet_state) = 5 - 0
  ∧ sequence_fast_readonly_advance
      (sequence_fast_readonly_ctor answering_ext (mkHandle 7) 0 quiet_state) (5 - 0)
    = sequence_fast_readonly_ctor answering_ext (mkHandle 7) 5 quiet_state.
Proof.
  destruct (sequence_fast_readonly_offsets answering_ext (mkHandle 7) 5 0 quiet_state)
    as (Hdist & _ & Hadv & _); [simpl; lia | simpl; lia | unfold in_ssize_t; lia |].
  split; [exact Hdist | exact Hadv].
Defined.

(** X17.  The mapping iterator.  When [PyDict_Next] reports that no entry
    is left, the position becomes [-1] whatever the call wrote into it, so
    the iterator equals every other exhausted iterator, over whatever
    dictionary; in particular an iterator constructed over a dictionary
    without entries is exhausted from the start.  When an entry is produced
    at a non-negative position, the iterator holds that key and value and
    differs from every exhausted iterator. *)
Theorem dict_readonly_exhaustion {W} (ext : ObjectAPI W) (it : dict_readonly)
    (s s1 : PyState W) (rc pos' : Z) (key' value' : N) :
  PyDict_Next ext (m_ptr (dro_obj it)) (dro_pos it) (dro_key it) (dro_value it) s
  = ((rc, (pos', (key', value'))), s1) →
  snd (dict_readonly_increment ext it s) = s1
  ∧ dict_readonly_ctor ext (dro_obj it) (dro_pos it) (dro_key it) (dro_value it) s
    = dict_readonly_increment ext it s
  ∧ (rc = 0 →
     dro_pos (fst (dict_readonly_increment ext it s)) = -1
     ∧ ∀ other, dro_pos other = -1 →
         dict_readonly_equal (fst (dict_readonly_increment ext it s)) other = true)
  ∧ (rc ≠ 0 →
     fst (dict_readonly_increment ext it s)
     = mkDictReadonly (dro_obj it) key' value' pos'
     ∧ dict_readonly_dereference (fst (dict_readonly_increment ext it s))
       = (mkHandle key', mkHandle value')
     ∧ (0 ≤ pos' →
        ∀ other, dro_pos other = -1 →
          dict_readonly_equal (fst (dict_readonly_increment ext it s)) other
          = false)).
Proof.
  intros Hnext. unfold dict_readonly_ctor, dict_readonly_increment, handle_ptr.
  destruct it as [o k v pos]. simpl in *. rewrite Hnext.
  split; [by destruct (rc =? 0)|]. split; [reflexivity|].
  split.
  - intros ->. simpl. split; [reflexivity|].
    intros other Hother. unfold dict_readonly_equal. simpl. by rewrite Hother.
  - intros Hrc. assert ((rc =? 0) = false) as -> by (by apply Z.eqb_neq).
    simpl. split; [reflexivity|]. split; [reflexivity|].
    intros Hpos other Hother. unfold dict_readonly_equal. simpl.
    rewrite Hother. apply Z.eqb_neq. lia.
Qed.

Lemma dict_readonly_exhaustion_witness :
  dro_pos (fst (dict_readonly_increment answering_ext
                  (mkDictReadonly (mkHandle 7) nullptr nullptr 0) quiet_state))
  = -1
  ∧ fst (dict_readonly_increment failing_ext
           (mkDictReadonly (mkHandle 7) 11 12 3) quiet_state)
    = mkDictReadonly (mkHandle 7) 11 12 3.
Proof.
  split.
  - destruct (dict_readonly_exhaustion answering_ext
                (mkDictReadonly (mkHandle 7) nullptr nullptr 0)
                quiet_state quiet_state 0 0 nullptr nullptr eq_refl)
      as (_ & _ & Hend & _).
    by destruct (Hend eq_refl).
  - destruct (dict_readonly_exhaustion failing_ext
                (mkDictReadonly (mkHandle 7) 11 12 3)
                quiet_state quiet_state (-1) 3 11 12 eq_refl)
      as (_ & _ & _ & Hlive).
    by destruct (Hlive ltac:(lia)).
Defined.

(** ** Type names *)

Lemma byte_of_inj (a b : ascii) : byte_of a = byte_of b → a = b.
Proof.
  unfold byte_of. intros Heq. apply N2Z.inj in Heq.
  rewrite <- (ascii_N_embedding a), <- (ascii_N_embedding b). by rewrite Heq.
Qed.

Lemma type_hash_loop_c_str (name : string) (h : Z) :
  type_hash_loop (c_str name) h = type_hash_loop name h.
Proof.
  revert h. induction name as [|ch rest IH]; intros h; simpl; [reflexivity|].
  destruct (byte_of ch =? 0) eqn:Hz; simpl; [reflexivity|].
  by rewrite Hz, IH.
Qed.

Lemma strcmp_zero_iff (a b : string) : strcmp a b = 0 ↔ c_str a = c_str b.
Proof.
  revert b. induction a as [|ca a IH]; intros [|cb b]; simpl.
  - done.
  - destruct (byte_of cb =? 0) eqn:Hz.
    + apply Z.eqb_eq in Hz. split; [done | lia].
    + apply Z.eqb_neq in Hz. split; [lia | discriminate].
  - destruct (byte_of ca =? 0) eqn:Hz.
    + apply Z.eqb_eq in Hz. split; [done | lia].
    + apply Z.eqb_neq in Hz. split; [lia | discriminate].
  - destruct (byte_of ca =? byte_of cb) eqn:Heq; simpl.
    + apply Z.eqb_eq in Heq. pose proof (byte_of_inj _ _ Heq) as ->.
      destruct (byte_of cb =? 0); [done|].
      rewrite IH. split; [by intros -> | by intros [= ->]].
    + apply Z.eqb_neq in Heq. split; [lia|].
      destruct (byte_of ca =? 0) eqn:Hza, (byte_of cb =? 0) eqn:Hzb;
        try discriminate.
      * apply Z.eqb_eq in Hza, Hzb. lia.
      * intros [= -> _]. done.
Qed.

(** X19.  [type_equal_to] (and [same_type]) is an equivalence of type
    names, namely having the same characters before the terminator, and
    [type_hash] respects it: names that compare equal hash to the same
    value, as a hash table keyed by them needs. *)
Theorem type_equal_to_consistent (name_at : N → string) (a b c : N) :
  (type_equal_to name_at a b = true ↔ c_str (name_at a) = c_str (name_at b))
  ∧ same_type name_at a b = type_equal_to name_at a b
  ∧ type_equal_to name_at a a = true
  ∧ type_equal_to name_at a b = type_equal_to name_at b a
  ∧ (type_equal_to name_at a b = true → type_equal_to name_at b c = true →
     type_equal_to name_at a c = true)
  ∧ (type_equal_to name_at a b = true → type_hash name_at a = type_hash name_at b).
Proof.
  assert (∀ x y, type_equal_to name_at x y = true
                 ↔ c_str (name_at x) = c_str (name_at y)) as Hiff.
  { intros x y. unfold type_equal_to. rewrite orb_true_iff, Z.eqb_eq, N.eqb_eq.
    rewrite strcmp_zero_iff. split; [|by right].
    intros [->|Hs]; [reflexivity | exact Hs]. }
  split; [apply Hiff|]. split; [reflexivity|].
  split; [by apply Hiff|].
  split.
  { destruct (type_equal_to name_at a b) eqn:Hab, (type_equal_to name_at b a) eqn:Hba;
      try reflexivity.
    - apply Hiff in Hab. symmetry in Hab. apply Hiff in Hab. congruence.
    - apply Hiff in Hba. symmetry in Hba. apply Hiff in Hba. congruence. }
  split.
  { intros Hab Hbc. apply Hiff. apply Hiff in Hab, Hbc. congruence. }
  intros Hab. apply Hiff in Hab. unfold type_hash.
  by rewrite <- (type_hash_loop_c_str (name_at a)),
             <- (type_hash_loop_c_str (name_at b)), Hab.
Qed.

Lemma type_equal_to_consistent_witness :
  type_hash (fun t => if N.eqb t 1 then "int" else String "i" "nt")%string 1
  = type_hash (fun t => if N.eqb t 1 then "int" else String "i" "nt")%string 2.
Proof.
  destruct (type_equal_to_consistent
              (fun t => if N.eqb t 1 then "int" else String "i" "nt")%string
              1 2 1) as (_ & _ & _ & _ & _ & Hhash).
  apply Hhash. reflexivity.
Defined.

(** ** Shared data *)

(** X20.  What is stored under a name is what is found under it:
    [set_shared_data] returns the pointer it stores, a later
    [get_shared_data] of the same name returns that pointer, the last of
    two writes wins, entries under other names are not affected, and
    nothing but the table changes. *)
Theorem shared_data_round_trip {R} (i : internals R) (name other : string)
    (data data' : N) :
  fst (set_shared_data i name data) = data
  ∧ get_shared_data (snd (set_shared_data i name data)) name = data
  ∧ get_shared_data
      (snd (set_shared_data (snd (set_shared_data i name data)) name data')) name
    = data'
  ∧ snd (set_shared_data (snd (set_shared_data i name data)) name data')
    = snd (set_shared_data i name data')
  ∧ (other ≠ name →
     get_shared_data (snd (set_shared_data i name data)) other
     = get_shared_data i other)
  ∧ internals_rest (snd (set_shared_data i name data)) = internals_rest i.
Proof.
  unfold get_shared_data, set_shared_data. simpl.
  rewrite !lookup_insert_eq, insert_insert_eq.
  repeat split.
  intros Hne. by rewrite lookup_insert_ne.
Qed.

Lemma shared_data_round_trip_witness :
  get_shared_data (snd (set_shared_data (mkInternals ∅ tt) "a" 5%N)) "b" = nullptr.
Proof.
  destruct (shared_data_round_trip (mkInternals ∅ tt) "a" "b" 5%N 6%N)
    as (_ & _ & _ & _ & Hother & _).
  rewrite Hother; [reflexivity | discriminate].
Defined.

(** X21.  A name that was never stored yields the null pointer instead of a
    failure, and so does a name under which the null pointer was stored: the
    result of [get_shared_data] is not null exactly when the table holds a
    non-null pointer under the name. *)
Theorem shared_data_absent {R} (i : internals R) (name : string) :
  (shared_data i !! name = None → get_shared_data i name = nullptr)
  ∧ get_shared_data (snd (set_shared_data i name nullptr)) name = nullptr
  ∧ (get_shared_data i name ≠ nullptr
     ↔ ∃ p, shared_data i !! name = Some p ∧ p ≠ nullptr).
Proof.
  unfold get_shared_data, set_shared_data. simpl.
  split; [by intros ->|]. split; [by rewrite lookup_insert_eq|].
  destruct (shared_data i !! name) as [p|]; split.
  - intros Hp. by exists p.
  - by intros (q & [= <-] & Hq).
  - done.
  - by intros (q & Hq & _).
Qed.

Lemma shared_data_absent_witness :
  get_shared_data (mkInternals ∅ tt) "missing" = nullptr.
Proof.
  destruct (shared_data_absent (mkInternals ∅ tt) "missing") as [Habsent _].
  apply Habsent. reflexivity.
Defined.

(** ** Global options *)

Lemma run_setters_cons (c : options_setter) (cs : list options_setter)
    (g : options_state) :
  run_setters (c :: cs) g = run_setters cs (run_setter g c).
Proof. reflexivity. Qed.

(** X22.  An [options] object restores on destruction the settings it found
    on construction, whatever calls of the setters were made in between.
    So nothing set inside a scope leaks out of it: the settings after any
    code, with scopes nested to any depth, are those made by its setter
    calls outside all scopes. *)
Theorem options_scope_restores (cs : list options_setter)
    (sts : list options_stmt) (g : options_state) :
  options_scope cs g = g
  ∧ run_stmt g (stmt_scope sts) = g
  ∧ run_stmts sts g = run_setters (outer_setters sts) g.
Proof.
  split; [reflexivity|]. split; [reflexivity|].
  revert g. induction sts as [|st sts IH]; intros g; [reflexivity|].
  change (run_stmts (st :: sts) g) with (run_stmts sts (run_stmt g st)).
  rewrite IH. by destruct st.
Qed.

(** X23.  Each flag is decided by the last call of one of its own two
    setters: after any sequence of calls, a getter returns the value given
    by the last call that concerned its flag, and the value the flag had
    before when there was none; calls on one flag never change the other. *)
Theorem options_last_call_wins (cs : list options_setter) (g : options_state) :
  options_show_user_defined_docstrings (run_setters cs g)
    = default (show_user_defined_docstrings g) (last_docstrings cs)
  ∧ options_show_function_signatures (run_setters cs g)
    = default (show_function_signatures g) (last_signatures cs).
Proof.
  unfold options_show_user_defined_docstrings, options_show_function_signatures.
  revert g. induction cs as [|c cs IH]; intros g; [done|].
  rewrite run_setters_cons. destruct (IH (run_setter g c)) as [Hd Hs].
  rewrite Hd, Hs. simpl.
  destruct (last_docstrings cs), (last_signatures cs); simpl;
    by destruct c as [[|]|[|]].
Qed.

(** ** Constructors, in both outcomes *)

Section ConstructorOutcomes.
Context {W : Type} (api : HostAPI W).
Implicit Types (s : PyState W).

End ConstructorOutcomes.



(** X25.  [slice] releases its temporaries on every path.  Once the three
    [int_] objects are built, they are destroyed (last built first) whether
    [PySlice_New] succeeds, in which case the slice is returned, or returns
    null, in which case the fatal error is raised.  When building the second
    or the third [int_] throws, the ones already built are destroyed and the
    exception goes on. *)
Theorem slice_ctor_releases_temporaries {W} (api : HostAPI W) (a b c : Z)
    (o1 : object) (s s1 : PyState W) :
  int__from_ssize_t api a s = (Ok o1, s1) →
  (∀ e s2, int__from_ssize_t api b s1 = (Throw e, s2) →
     slice_ctor api a b c s = (Throw e, object_dtor o1 s2))
  ∧ (∀ o2 s2 e s3,
       int__from_ssize_t api b s1 = (Ok o2, s2) →
       int__from_ssize_t api c s2 = (Throw e, s3) →
       slice_ctor api a b c s = (Throw e, object_dtor o1 (object_dtor o2 s3)))
  ∧ (∀ o2 s2 o3 s3 p s4,
       int__from_ssize_t api b s1 = (Ok o2, s2) →
       int__from_ssize_t api c s2 = (Ok o3, s3) →
       PySlice_New api (m_ptr o1) (m_ptr o2) (m_ptr o3) s3 = (p, s4) →
       slice_ctor api a b c s
       = (if is_null p
          then Throw (exc_std std_runtime_error "Could not allocate slice object!")
          else Ok (mkHandle p),
          object_dtor o1 (object_dtor o2 (object_dtor o3 s4)))).
Proof.
  intros H1. unfold slice_ctor, on_throw, finally, bind. rewrite H1.
  split; [|split].
  - intros e s2 H2. rewrite H2. reflexivity.
  - intros o2 s2 e s3 H2 H3. rewrite H2, H3. reflexivity.
  - intros o2 s2 o3 s3 p s4 H2 H3 H4. rewrite H2, H3.
    unfold call, handle_ptr. rewrite H4.
    destruct (is_null p); reflexivity.
Qed.

Lemma slice_ctor_releases_temporaries_witness :
  slice_ctor answering_api 0 4 1 shared_state
  = (Ok (mkHandle 7),
     object_dtor (mkHandle 7) (object_dtor (mkHandle 7) (object_dtor (mkHandle 7)
       shared_state))).
Proof.
  destruct (slice_ctor_releases_temporaries answering_api 0 4 1 (mkHandle 7)
              shared_state shared_state eq_refl) as (_ & _ & Hbuilt).
  apply (Hbuilt (mkHandle 7) shared_state (mkHandle 7) shared_state 7%N shared_state);
    reflexivity.
Defined.



(** X27.  With a runtime of major version 2, [repr] and [str::raw_str] pass
    the text through a decoding step, and both give up the intermediate
    object whatever the decoding returns.  They differ on a failed decoding
    (a null result): [repr] raises an [error_already_set], while [raw_str]
    returns the null pointer, which [str(handle)] then stores.  With
    version 3 or later, [repr] returns the result of [PyObject_Repr]. *)
Theorem repr_decoding {W} (api : HostAPI W) (ext : ObjectAPI W) (h : handle)
    (s s1 s2 : PyState W) (q u : N) :
  q ≠ nullptr →
  PyUnicode_FromEncodedObject api q "utf-8" s1 = (u, s2) →
  (PY_MAJOR_VERSION api < 3 →
   (PyObject_Repr ext (m_ptr h) s = (q, s1) →
    repr api ext h s
    = (if is_null u then throw_error_already_set api (Py_XDECREF q s2)
       else (Ok (mkHandle u), Py_XDECREF q s2)))
   ∧ (PyObject_Str api (m_ptr h) s = (q, s1) →
      str_ctor_handle api h s = (Ok (mkHandle u), Py_XDECREF q s2)))
  ∧ (3 ≤ PY_MAJOR_VERSION api →
     PyObject_Repr ext (m_ptr h) s = (q, s1) →
     repr api ext h s = (Ok (mkHandle q), s1)).
Proof.
  intros Hq Hdec. pose proof (is_null_false _ Hq) as Hnn. split.
  - intros Hv. assert ((PY_MAJOR_VERSION api <? 3) = true) as Hlt
      by (by apply Z.ltb_lt).
    split; intros Hcall.
    + unfold repr. rewrite (bind_call _ _ _ _ _ Hcall), Hnn, bind_ret, Hlt.
      rewrite (bind_call _ _ _ _ _ Hdec), bind_exec.
      destruct (is_null u); [|reflexivity].
      unfold bind, throw_error_already_set.
      by destruct (error_already_set_ctor api (Py_XDECREF q s2)).
    + unfold str_ctor_handle, str_raw_str.
      unfold bind at 1. unfold bind at 1. unfold call at 1. unfold handle_ptr.
      rewrite Hcall, Hlt, Hnn. rewrite bind_ret.
      rewrite (bind_call _ _ _ _ _ Hdec), bind_exec. reflexivity.
  - intros Hv Hcall.
    assert ((PY_MAJOR_VERSION api <? 3) = false) as Hge by (apply Z.ltb_ge; lia).
    unfold repr. by rewrite (bind_call _ _ _ _ _ Hcall), Hnn, bind_ret, Hge.
Qed.

Lemma repr_decoding_witness :
  repr answering_api answering_ext (mkHandle 9) quiet_state
  = (Ok (mkHandle 7), quiet_state).
Proof.
  destruct (repr_decoding answering_api answering_ext (mkHandle 9)
              quiet_state quiet_state quiet_state 7 7 ltac:(discriminate) eq_refl)
    as [_ Hv3].
  apply Hv3; [simpl; lia | reflexivity].
Defined.

(** ** From a failed call back to the runtime *)

(** X28.  A host error survives the trip through C++.  When a call into the
    runtime fails and the wrapper throws [error_already_set()], and
    [translate_exception] later receives that exception, the error indicator
    holds again the very triple the failed call had left pending
    ([detail::error_string] keeping the indicator), and no count has
    changed since the throw.  Shown for [getattr]; between the throw and
    the translation the indicator is empty. *)
Theorem error_survives_translation {W} (api : HostAPI W) (obj name : handle)
    (s s1 : PyState W) :
  PyObject_GetAttr api (m_ptr obj) (m_ptr name) s = (nullptr, s1) →
  curexc (snd (error_string api s1)) = curexc s1 →
  ∃ e s2,
    getattr api obj name s = (Throw (exc_error_already_set e), s2)
    ∧ curexc s2 = no_error
    ∧ curexc (translate_exception api (Some (exc_error_already_set e)) s2)
      = curexc s1
    ∧ ob_refcnt (translate_exception api (Some (exc_error_already_set e)) s2)
      = ob_refcnt s2.
Proof.
  intros Hcall Hkeep. unfold getattr.
  rewrite (bind_call _ _ _ _ _ Hcall).
  change (is_null nullptr) with true. cbv beta iota.
  rewrite throw_error_already_set_eq.
  destruct (error_already_set_ctor_holds api s1 Hkeep) as [Hheld Hempty].
  do 2 eexists. split; [reflexivity|]. split; [exact Hempty|].
  simpl. rewrite PyErr_Restore_curexc. split; [exact Hheld|].
  rewrite (PyErr_Restore_quiet _ _ _ _ Hempty). reflexivity.
Qed.

Lemma error_survives_translation_witness :
  ∃ e s2,
    getattr failing_api (mkHandle 7) (mkHandle 12) error_state
    = (Throw (exc_error_already_set e), s2)
    ∧ curexc s2 = no_error
    ∧ curexc (translate_exception failing_api (Some (exc_error_already_set e)) s2)
      = curexc error_state
    ∧ ob_refcnt (translate_exception failing_api (Some (exc_error_already_set e)) s2)
      = ob_refcnt s2.
Proof.
  apply (error_survives_translation failing_api (mkHandle 7) (mkHandle 12)
           error_state error_state); reflexivity.
Defined.
